(** * cyd-crypto-ticker: the screenshot extraction pipeline

    A shallow embedding of [extract_screenshot.py]: the script reads a
    serial log, cuts out the section between the two screenshot markers,
    reads the optional FORMAT/WIDTH/HEIGHT tokens, collects the hex-only
    lines, decodes them to bytes, stores them as a raw RGB565 file and
    converts that file to a PNG with Pillow when it is installed.

    Python values are modelled as follows.
    - [str] is a list of 8-bit characters ([ascii]); the console of the
      device is an ASCII transport.
    - [bytes] is a list of [byte].
    - [int] is [Z]; indices that the script keeps non-negative are [nat].
    - the file system is a finite map from paths to file contents.
    - [print] appends a line to the standard output of the world.
    - a raised exception is the left injection of a sum. *)

From Stdlib Require Import ZArith List Ascii String Lia Bool DecimalString
  Sorted.
From Stdlib.Strings Require Import Byte.
From stdpp Require Import gmap strings list.
Import ListNotations.
Open Scope Z_scope.

(** ** The Python built-ins the script calls *)

Module Py.

Abbreviation str := (list ascii).
Abbreviation bytes := (list byte).

Definition LF : ascii := "010"%char.
Definition CR : ascii := "013"%char.

(** A string literal of the script. *)
Definition lit (s : string) : str := list_ascii_of_string s.

(** The exceptions that can reach a handler of the script.  [Error] stands
    for any other subclass of [Exception], with its message. *)
Inductive exn :=
| ImportError
| StructError
| ValueError
| FileNotFoundError
| Error (msg : string).

Definition code (c : ascii) : N := N_of_ascii c.

Definition in_range (lo hi : N) (c : ascii) : bool :=
  ((lo <=? code c) && (code c <=? hi))%N.

(** [\d] *)
Definition is_digit (c : ascii) : bool := in_range 48 57 c.

(** [\w] *)
Definition is_word (c : ascii) : bool :=
  is_digit c || in_range 65 90 c || in_range 97 122 c || (code c =? 95)%N.

(** [[0-9a-fA-F]] *)
Definition is_hexdigit (c : ascii) : bool :=
  is_digit c || in_range 97 102 c || in_range 65 70 c.

(** [Py_ISSPACE]: space, and the controls from tab to carriage return. *)
Definition is_space (c : ascii) : bool :=
  (code c =? 32)%N || in_range 9 13 c.

(** [s.startswith(p)] *)
Fixpoint startswith (s p : str) : bool :=
  match p, s with
  | [], _ => true
  | _ :: _, [] => false
  | a :: p', b :: s' => Ascii.eqb a b && startswith s' p'
  end.

(** [s.find(sub)]: the lowest index at which [sub] occurs in [s]; Python's
    [-1] is [None]. *)
Fixpoint find (s sub : str) : option nat :=
  if startswith s sub then Some 0%nat
  else match s with
       | [] => None
       | _ :: s' => option_map S (find s' sub)
       end.

(** [l[i:j]] for indices that are not negative: empty when [j <= i], cut at
    the end of [l]. *)
Definition slice {A : Type} (l : list A) (i j : nat) : list A :=
  firstn (j - i) (skipn i l).

(** What [open(path, 'r').read()] does to line endings (universal
    newlines): each of CR LF and CR alone is read as LF. *)
Fixpoint universal_newlines (s : str) : str :=
  match s with
  | [] => []
  | c :: s' =>
    if Ascii.eqb c CR then
      LF :: match s' with
            | d :: s'' => if Ascii.eqb d LF then universal_newlines s''
                          else universal_newlines s'
            | [] => []
            end
    else c :: universal_newlines s'
  end.

(** Text mode decodes the bytes of the file, then translates newlines. *)
Definition read_text (data : bytes) : str :=
  universal_newlines (map ascii_of_byte data).

(** The longest prefix of [s] whose characters are all in the class: what a
    greedy [cls+] consumes. *)
Fixpoint span_while (cls : ascii -> bool) (s : str) : str :=
  match s with
  | c :: s' => if cls c then c :: span_while cls s' else []
  | [] => []
  end.

(** An attempt of the pattern [key(cls+)] at the start of [s]: group 1. *)
Definition match_token_here (key : str) (cls : ascii -> bool) (s : str)
  : option str :=
  if startswith s key then
    match span_while cls (skipn (length key) s) with
    | [] => None
    | g => Some g
    end
  else None.

(** [re.search(key(cls+), s)]: the attempt is made at each position from the
    left, the first success wins; the result is [group(1)]. *)
Fixpoint re_search_group (key : str) (cls : ascii -> bool) (s : str)
  : option str :=
  match match_token_here key cls s with
  | Some g => Some g
  | None => match s with
            | [] => None
            | _ :: s' => re_search_group key cls s'
            end
  end.

(** [int(ds)] on a run of decimal digits. *)
Definition int_of_digits (ds : str) : Z :=
  fold_left (fun acc c => 10 * acc + (Z.of_N (code c) - 48)) ds 0.

(** [^] under [re.MULTILINE]: at the start of the text or just after LF. *)
Definition at_line_start (prev : option ascii) : bool :=
  match prev with
  | None => true
  | Some c => Ascii.eqb c LF
  end.

(** [$] under [re.MULTILINE]: at the end of the text or just before LF. *)
Definition at_line_end (s : str) : bool :=
  match s with
  | [] => true
  | c :: _ => Ascii.eqb c LF
  end.

(** An attempt of [[0-9a-fA-F]+$] at the start of [s].  The greedy run is
    the only candidate: a shorter run is followed by a hex digit, where [$]
    does not hold. *)
Definition match_hex_line_here (s : str) : option str :=
  match span_while is_hexdigit s with
  | [] => None
  | run => if at_line_end (skipn (length run) s) then Some run else None
  end.

(** [re.compile(r'^[0-9a-fA-F]+$', re.MULTILINE).findall(s)]: positions are
    tried from the left; after a match the scan resumes at its end ([skip]
    counts the characters of the match still to pass), otherwise one
    character further.  [prev] is the character before the position. *)
Fixpoint findall_scan (prev : option ascii) (skip : nat) (s : str)
  : list str :=
  match s with
  | [] => []
  | c :: s' =>
    match skip with
    | S k => findall_scan (Some c) k s'
    | O =>
      match (if at_line_start prev then match_hex_line_here s else None) with
      | Some run => run :: findall_scan (Some c) (length run - 1) s'
      | None => findall_scan (Some c) 0 s'
      end
    end
  end.

Definition findall_hex_lines (s : str) : list str := findall_scan None 0 s.

(** The value of a hex digit. *)
Definition hex_value (c : ascii) : option N :=
  if is_digit c then Some (code c - 48)%N
  else if in_range 97 102 c then Some (code c - 87)%N
  else if in_range 65 70 c then Some (code c - 55)%N
  else None.

Definition byte_of_nibbles (top bot : N) : byte :=
  byte_of_ascii (ascii_of_N (16 * top + bot)).

(** [bytes.fromhex(s)]: white space is skipped before a pair, the two digits
    of a pair are adjacent; anything else raises [ValueError]. *)
Fixpoint fromhex (s : str) : exn + bytes :=
  match s with
  | [] => inr []
  | c :: s' =>
    if is_space c then fromhex s'
    else match hex_value c, s' with
         | Some top, d :: s'' =>
           match hex_value d with
           | Some bot =>
             match fromhex s'' with
             | inr bs => inr (byte_of_nibbles top bot :: bs)
             | inl e => inl e
             end
           | None => inl ValueError
           end
         | _, _ => inl ValueError
         end
  end.

(** [struct.unpack('>H', chunk)[0]]: the buffer must hold exactly 2 bytes. *)
Definition unpack_be_u16 (chunk : bytes) : exn + Z :=
  match chunk with
  | [hi; lo] => inr (256 * Z.of_N (Byte.to_N hi) + Z.of_N (Byte.to_N lo))
  | _ => inl StructError
  end.

(** [range(0, n, 2)] *)
Definition range_step2 (n : nat) : list nat :=
  map (fun k => (2 * k)%nat) (seq 0 (Nat.div2 (n + 1))).

(** [str(n)] for an integer. *)
Definition str_of_int (n : Z) : string := NilZero.string_of_int (Z.to_int n).

(** *** Built-ins of the two look-up scripts *)


(** [c.upper()] and [c.lower()] on one character: the ASCII letters change,
    every other character stays. *)
Definition upper_char (c : ascii) : ascii :=
  if in_range 97 122 c then ascii_of_N (code c - 32) else c.

Definition lower_char (c : ascii) : ascii :=
  if in_range 65 90 c then ascii_of_N (code c + 32) else c.

(** [s.upper()], [s.lower()] *)
Definition upper (s : str) : str := map upper_char s.
Definition lower (s : str) : str := map lower_char s.

(** [a == b] on strings. *)
Definition str_eqb (a b : str) : bool := bool_decide (a = b).

(** [s.endswith(p)] *)
Definition endswith (s p : str) : bool :=
  (length p <=? length s)%nat &&
  str_eqb (skipn (length s - length p) s) p.

(** [a <= b] on strings: by the codes of the characters, a prefix first. *)
Fixpoint str_leb (a b : str) : bool :=
  match a, b with
  | [], _ => true
  | _ :: _, [] => false
  | x :: a', y :: b' =>
    if (code x <? code y)%N then true
    else if (code y <? code x)%N then false
    else str_leb a' b'
  end.

(** [sep.join(parts)] *)
Fixpoint join (sep : str) (parts : list str) : str :=
  match parts with
  | [] => []
  | [x] => x
  | x :: rest => x ++ sep ++ join sep rest
  end.

(** [format(s, '<n')]: [s] at the left of a field of [n] characters. *)
Definition ljust (n : nat) (s : str) : str :=
  s ++ repeat " "%char (n - length s).

(** [c * n] for a character. *)
Definition rule (c : ascii) (n : nat) : str := repeat c n.

(** [str(n)] as a Python string. *)
Definition str_int (n : Z) : str := lit (str_of_int n).

(** [l.sort(key=...)], where [le a b] is [key(a) <= key(b)].  The sort of
    Python is stable, so its result is the one of any stable sort: here each
    element, from the last to the first, is put before the first element
    that is not smaller. *)
Fixpoint insert_by {A : Type} (le : A -> A -> bool) (x : A) (l : list A)
  : list A :=
  match l with
  | [] => [x]
  | y :: l' => if le x y then x :: y :: l' else y :: insert_by le x l'
  end.

Definition sort_by {A : Type} (le : A -> A -> bool) (l : list A) : list A :=
  fold_right (insert_by le) [] l.

(** [range(0, stop, step)] for a positive step. *)
Definition range_step (stop step : nat) : list nat :=
  map (fun k => (step * k)%nat) (seq 0 ((stop + step - 1) / step)).

End Py.

(** ** The world the script runs in *)

(** One call of [print]: a line of text, or a line that ends with the
    message of an exception ([f"...{e}"]). *)
Inductive out_line :=
| Print (s : string)
| PrintExn (s : string) (e : Py.exn).

(** Files by path, and what was printed so far. *)
Record World := mkWorld {
  fs : gmap string Py.bytes;
  stdout : list out_line
}.

Definition Pixel : Type := Z * Z * Z.

(** What the script does not decide: the clock, Pillow, and whether a file
    may be removed.  [pil] is [None] when Pillow is not installed; otherwise
    it is [Image.new('RGB', (w, h))], [putdata] and [save] taken together,
    giving the bytes of the PNG file or the exception one of the three
    raised.  [rm path] is the exception that the system raises when the
    file at [path] is to be removed, [None] when it lets it go. *)
Record Env := mkEnv {
  now : string;
  pil : option (Z -> Z -> list Pixel -> Py.exn + Py.bytes);
  rm : string -> option Py.exn
}.

Definition echo (ls : list out_line) (w : World) : World :=
  mkWorld (fs w) (stdout w ++ ls).

Definition write_file (path : string) (data : Py.bytes) (w : World) : World :=
  mkWorld (<[path := data]> (fs w)) (stdout w).

Definition unlink (path : string) (w : World) : World :=
  mkWorld (delete path (fs w)) (stdout w).

(** [Path(path).unlink()]: the file is removed, or an exception is raised,
    because there is no such file or because the system refuses. *)
Definition try_unlink (env : Env) (path : string) (w : World)
  : Py.exn + World :=
  match fs w !! path with
  | None => inl Py.FileNotFoundError
  | Some _ =>
    match rm env path with
    | Some e => inl e
    | None => inr (unlink path w)
    end
  end.

Definition nl : string := String Py.LF EmptyString.

(** ** extract_screenshot *)

Definition start_marker : Py.str :=
  Py.lit "========== SCREENSHOT START ==========".
Definition end_marker : Py.str :=
  Py.lit "========== SCREENSHOT END ==========".

(** The three places where [extract_screenshot] prints an error and returns
    [None]: markers not found, no hex data found, hex data not convertible. *)
Inductive Fatal := MissingMarker | NoPayload | InvalidHex.

(** Lines 30-38: the section of the log that is searched. *)
Definition locate_section (content : Py.str) : Fatal + Py.str :=
  match Py.find content start_marker, Py.find content end_marker with
  | Some start_idx, Some end_idx => inr (Py.slice content start_idx end_idx)
  | _, _ => inl MissingMarker
  end.

Record FrameMetadata := mkMeta {
  img_format : option Py.str;
  width : Z;
  height : Z
}.

(** Lines 40-55: the metadata, and the lines printed for the tokens found. *)
Definition extract_metadata (section : Py.str) : list out_line * FrameMetadata :=
  let format_match := Py.re_search_group (Py.lit "FORMAT:") Py.is_word section in
  let width_match := Py.re_search_group (Py.lit "WIDTH:") Py.is_digit section in
  let height_match := Py.re_search_group (Py.lit "HEIGHT:") Py.is_digit section in
  let out_f :=
    match format_match with
    | Some g => [Print ("Format: " +:+ string_of_list_ascii g)]
    | None => []
    end in
  let '(width, out_w) :=
    match width_match with
    | Some g => let width := Py.int_of_digits g in
                (width, [Print ("Width: " +:+ Py.str_of_int width)])
    | None => (240, [])
    end in
  let '(height, out_h) :=
    match height_match with
    | Some g => let height := Py.int_of_digits g in
                (height, [Print ("Height: " +:+ Py.str_of_int height)])
    | None => (320, [])
    end in
  (out_f ++ out_w ++ out_h, mkMeta format_match width height).

Definition metadata_of (section : Py.str) : FrameMetadata :=
  snd (extract_metadata section).

(** Lines 57-68: the hex lines of the section, joined. *)
Definition collect_hex (section : Py.str) : Fatal + Py.str :=
  match Py.findall_hex_lines section with
  | [] => inl NoPayload
  | hex_lines => inr (concat hex_lines)
  end.

Definition raw_name (timestamp : string) : string :=
  "screenshot_" +:+ timestamp +:+ ".raw".

Definition png_name (timestamp : string) : string :=
  "screenshot_" +:+ timestamp +:+ ".png".

(** What [extract_screenshot] hands back: an exception that no handler of
    the function catches, [None] after one of the three errors, or the tuple
    [(raw_file, width, height, timestamp)]. *)
Inductive Extracted :=
| Uncaught (e : Py.exn)
| ReturnNone (why : Fatal)
| ReturnTuple (raw_file : string) (width height : Z) (timestamp : string).

Definition extract_screenshot (env : Env) (log_file : string) (w : World)
  : World * Extracted :=
  let w := echo [Print ("Reading log file: " +:+ log_file)] w in
  match fs w !! log_file with
  | None => (w, Uncaught Py.FileNotFoundError)
  | Some data =>
    let content := Py.read_text data in
    match locate_section content with
    | inl why =>
      (echo [Print "Error: Screenshot markers not found in log file";
             Print "Make sure to capture serial output from device after short button press"] w,
       ReturnNone why)
    | inr screenshot_section =>
      let '(out_meta, meta) := extract_metadata screenshot_section in
      let w := echo out_meta w in
      let hex_lines := Py.findall_hex_lines screenshot_section in
      match collect_hex screenshot_section with
      | inl why =>
        (echo [Print "Error: No hex data found in screenshot section"] w,
         ReturnNone why)
      | inr hex_data =>
        let w := echo
          [Print ("Found " +:+ Py.str_of_int (Z.of_nat (length hex_lines))
                  +:+ " hex data lines");
           Print ("Total hex characters: "
                  +:+ Py.str_of_int (Z.of_nat (length hex_data)));
           Print ("Expected bytes: "
                  +:+ Py.str_of_int (width meta * height meta * 2))] w in
        match Py.fromhex hex_data with
        | inl e =>
          (echo [PrintExn "Error converting hex data: " e] w,
           ReturnNone InvalidHex)
        | inr raw_data =>
          let w := echo
            [Print ("Converted to "
                    +:+ Py.str_of_int (Z.of_nat (length raw_data))
                    +:+ " bytes")] w in
          let timestamp := now env in
          let raw_file := raw_name timestamp in
          let w := write_file raw_file raw_data w in
          let w := echo [Print ("Saved raw file: " +:+ raw_file)] w in
          (w, ReturnTuple raw_file (width meta) (height meta) timestamp)
        end
      end
    end
  end.

(** ** convert_to_png *)

(** Lines 111-121: one RGB565 sample to one RGB888 pixel. *)
Definition pixel_of_sample (val : Z) : Pixel :=
  let r5 := Z.land (Z.shiftr val 11) 31 in
  let g6 := Z.land (Z.shiftr val 5) 63 in
  let b5 := Z.land val 31 in
  let r8 := Z.lor (Z.shiftl r5 3) (Z.shiftr r5 2) in
  let g8 := Z.lor (Z.shiftl g6 2) (Z.shiftr g6 4) in
  let b8 := Z.lor (Z.shiftl b5 3) (Z.shiftr b5 2) in
  (r8, g8, b8).

(** Lines 107-121: the loop over the indices [i], with the list [pixels]
    that it appends to. *)
Fixpoint pixel_loop (data : Py.bytes) (indices : list nat)
    (pixels : list Pixel) : Py.exn + list Pixel :=
  match indices with
  | [] => inr pixels
  | i :: rest =>
    match Py.unpack_be_u16 (Py.slice data i (i + 2)) with
    | inl e => inl e
    | inr val => pixel_loop data rest (pixels ++ [pixel_of_sample val])
    end
  end.

(** Lines 105-121. *)
Definition rgb565_to_rgb888 (data : Py.bytes) : Py.exn + list Pixel :=
  pixel_loop data (Py.range_step2 (length data)) [].

(** Lines 98-126, the body of [try]: the bytes of the PNG file, or the
    exception that leaves the body. *)
Definition convert_body (env : Env) (raw_file : string) (width height : Z)
    (w : World) : Py.exn + Py.bytes :=
  match pil env with
  | None => inl Py.ImportError
  | Some encode =>
    match fs w !! raw_file with
    | None => inl Py.FileNotFoundError
    | Some data =>
      match rgb565_to_rgb888 data with
      | inl e => inl e
      | inr pixels => encode width height pixels
      end
    end
  end.

Definition convert_to_png (env : Env) (raw_file : string) (width height : Z)
    (timestamp : string) (w : World) : World * option string :=
  let png_file := png_name timestamp in
  let w := echo [Print (nl +:+ "Converting to PNG: " +:+ png_file)] w in
  match convert_body env raw_file width height w with
  | inr png =>
    let w := write_file png_file png w in
    (echo [Print ("Successfully created: " +:+ png_file)] w, Some png_file)
  | inl Py.ImportError =>
    (echo [Print "Error: PIL/Pillow not found";
           Print "Install with: pip install pillow";
           Print "Or use ImageMagick manually:";
           Print ("  convert -depth 5 -size " +:+ Py.str_of_int width +:+ "x"
                  +:+ Py.str_of_int height +:+ " RGB565:" +:+ raw_file
                  +:+ " " +:+ png_file)] w,
     None)
  | inl e => (echo [PrintExn "Error converting to PNG: " e] w, None)
  end.

(** ** main *)

Definition usage : list out_line :=
  [Print "Usage: python extract_screenshot.py <screenshot.log>";
   Print (nl +:+ "To capture screenshot:");
   Print "1. Connect to device with serial monitor";
   Print "2. Press BOOT button briefly (< 1 second)";
   Print "3. Save serial output to a log file";
   Print "4. Run this script on the log file"].

(** The recipe printed when the PNG was not made (lines 172-174). *)
Definition manual_recipe (raw_file : string) (width height : Z)
    (timestamp : string) : list out_line :=
  [Print (nl +:+ "✓ Raw data saved as: " +:+ raw_file);
   Print "  You can manually convert with:";
   Print ("  convert -depth 16 -size " +:+ Py.str_of_int width +:+ "x"
          +:+ Py.str_of_int height +:+ " -endian LSB rgb:" +:+ raw_file
          +:+ " screenshot_" +:+ timestamp +:+ ".png")].

(** Lines 164-169: after the conversion the raw file is removed, or, when
    that raises, a warning is printed and the file stays. *)
Definition clean_up (env : Env) (raw_file : string) (w : World) : World :=
  match try_unlink env raw_file w with
  | inr w => echo [Print ("Cleaned up raw file: " +:+ raw_file)] w
  | inl e => echo [PrintExn "Warning: Could not delete raw file: " e] w
  end.

(** [main], from [sys.argv] to the exit status of the process. *)
Definition main (env : Env) (argv : list string) (w : World) : World * Z :=
  match argv with
  | [_; log_file] =>
    match fs w !! log_file with
    | None => (echo [Print ("Error: Log file not found: " +:+ log_file)] w, 1)
    | Some _ =>
      match extract_screenshot env log_file w with
      | (w, Uncaught _) => (w, 1)
      | (w, ReturnNone _) => (w, 1)
      | (w, ReturnTuple raw_file width height timestamp) =>
        match convert_to_png env raw_file width height timestamp w with
        | (w, Some png_file) =>
          let w := clean_up env raw_file w in
          (echo [Print (nl +:+ "✓ Screenshot saved as: " +:+ png_file)] w, 0)
        | (w, None) => (echo (manual_recipe raw_file width height timestamp) w, 0)
        end
      end
    end
  | _ => (echo usage w, 1)
  end.

(** ** Vocabulary of the specification

    The definitions below are not part of the script: they say in the
    words of the specification what the script is compared with. *)

Definition byte_val (b : byte) : Z := Z.of_N (Byte.to_N b).

(** The [j]-th big-endian 16-bit sample of a byte sequence. *)
Definition be_sample (data : list byte) (j : nat) : Z :=
  match data !! (2 * j)%nat, data !! (2 * j + 1)%nat with
  | Some hi, Some lo => 256 * byte_val hi + byte_val lo
  | _, _ => 0
  end.

(** [sub] occurs in [s] at offset [i]. *)
Definition occurs_at (sub s : list ascii) (i : nat) : Prop :=
  exists pre post, s = pre ++ sub ++ post /\ length pre = i.

Definition first_occurrence (sub s : list ascii) (i : nat) : Prop :=
  occurs_at sub s i /\ forall j, (j < i)%nat -> ~ occurs_at sub s j.

(** The class does not go on into [post]. *)
Definition class_stops (cls : ascii -> bool) (post : list ascii) : Prop :=
  match post with
  | [] => True
  | c :: _ => cls c = false
  end.

(** A token [key<value>] at offset [i] of [s], whose value [g] is the whole
    run of characters of the class that follows the key, and is not empty. *)
Definition token_at (key : list ascii) (cls : ascii -> bool)
    (s : list ascii) (i : nat) (g : list ascii) : Prop :=
  exists pre post,
    s = pre ++ key ++ g ++ post /\ length pre = i /\
    g <> [] /\ forallb cls g = true /\ class_stops cls post.

Definition token_absent (key : list ascii) (cls : ascii -> bool)
    (s : list ascii) : Prop :=
  forall i g, ~ token_at key cls s i g.

Definition first_token (key : list ascii) (cls : ascii -> bool)
    (s : list ascii) (i : nat) (g : list ascii) : Prop :=
  token_at key cls s i g /\
  forall j g', (j < i)%nat -> ~ token_at key cls s j g'.

(** The lines of a text: the pieces between line feeds. *)
Fixpoint split_lines (s : list ascii) : list (list ascii) :=
  match s with
  | [] => [[]]
  | c :: s' =>
    if Ascii.eqb c Py.LF then [] :: split_lines s'
    else match split_lines s' with
         | l :: ls => (c :: l) :: ls
         | [] => [[c]]
         end
  end.

Definition first_line (s : list ascii) : list ascii := hd [] (split_lines s).

Definition is_eol (c : ascii) : bool := Ascii.eqb c Py.CR || Ascii.eqb c Py.LF.

(** A line without its trailing carriage returns and line feeds. *)
Fixpoint rstrip_eol (l : list ascii) : list ascii :=
  match l with
  | [] => []
  | c :: l' =>
    match rstrip_eol l' with
    | [] => if is_eol c then [] else [c]
    | r => c :: r
    end
  end.

(** Not empty, and hex digits only. *)
Definition hex_only (l : list ascii) : bool :=
  match l with
  | [] => false
  | _ => forallb Py.is_hexdigit l
  end.

(** The rule of the specification for keeping a line. *)
Definition retained (line : list ascii) : bool := hex_only (rstrip_eol line).

Definition no_cr (s : list ascii) : Prop :=
  Forall (fun c => Ascii.eqb c Py.CR = false) s.

Definition hex_digit_count (s : list ascii) : nat :=
  length (List.filter Py.is_hexdigit s).

(** ** Sample runs *)

Definition file_of (s : string) : Py.bytes :=
  map byte_of_ascii (list_ascii_of_string s).

Definition line (s : string) : string := s +:+ nl.

(** A capture of a 2x1 screen: one red and one green pixel, with a log line
    between the two hex lines. *)
Definition sample_log : string :=
  line "boot ok" +:+
  line "========== SCREENSHOT START ==========" +:+
  line "FORMAT:RGB565 WIDTH:2 HEIGHT:1" +:+
  line "F800" +:+
  line "GARBAGE LINE" +:+
  line "07e0" +:+
  line "========== SCREENSHOT END ==========".

(** Three bytes of payload: one sample and a half. *)
Definition odd_log : string :=
  line "========== SCREENSHOT START ==========" +:+
  line "WIDTH:1 HEIGHT:1" +:+
  line "F80007" +:+
  line "========== SCREENSHOT END ==========".

(** The end marker is lost. *)
Definition cut_log : string :=
  line "========== SCREENSHOT START ==========" +:+
  line "F800".

(** Markers, nothing between them. *)
Definition empty_log : string :=
  line "========== SCREENSHOT START ==========" +:+
  line "no data" +:+
  line "========== SCREENSHOT END ==========".

(** Three hex digits. *)
Definition odd_hex_log : string :=
  line "========== SCREENSHOT START ==========" +:+
  line "F80" +:+
  line "========== SCREENSHOT END ==========".

Definition world_with (log : string) : World :=
  mkWorld {[ "shot.log"%string := file_of log ]} [].

Definition argv0 : list string := ["extract_screenshot.py"; "shot.log"]%string.

(** Pillow is not installed. *)
Definition env_no_pil : Env := mkEnv "20250101_120000" None (fun _ => None).

(** A stand-in for Pillow: [putdata] refuses more pixels than the image
    holds, otherwise the file is written. *)
Definition pillow_like (width height : Z) (pixels : list Pixel)
  : Py.exn + Py.bytes :=
  if width * height <? Z.of_nat (length pixels)
  then inl (Py.Error "too many data entries")
  else inr (file_of "PNG").

Definition env_pil : Env :=
  mkEnv "20250101_120000" (Some pillow_like) (fun _ => None).

(** Pillow is there, and the raw file may not be removed. *)
Definition env_locked : Env :=
  mkEnv "20250101_120000" (Some pillow_like)
        (fun _ => Some (Py.Error "Permission denied")).

(** ** Vocabulary for the further properties *)

(** The two expansions of [pixel_of_sample], by themselves. *)
Definition expand5 (x : Z) : Z := Z.lor (Z.shiftl x 3) (Z.shiftr x 2).
Definition expand6 (x : Z) : Z := Z.lor (Z.shiftl x 2) (Z.shiftr x 4).

(** The RGB565 sample made of the top 5, 6 and 5 bits of the channels of an
    RGB888 pixel. *)
Definition rgb565_of_pixel (p : Pixel) : Z :=
  let '(r8, g8, b8) := p in 2048 * (r8 / 8) + 32 * (g8 / 4) + b8 / 8.

Definition byte_of_val (v : Z) : byte := byte_of_ascii (ascii_of_N (Z.to_N v)).

(** The bytes, high then low, of the samples recovered from pixels. *)
Definition bytes_of_pixels (pixels : list Pixel) : list byte :=
  flat_map (fun p => let v := rgb565_of_pixel p in
                     [byte_of_val (v / 256); byte_of_val (v mod 256)])
           pixels.

(** The same bytes with each line feed written as carriage return, line
    feed. *)
Definition crlf (data : list byte) : list byte :=
  flat_map (fun b => if Byte.eqb b x0a then [x0d; x0a] else [b]) data.

(** ** find_coin_id.py *)

Module FindCoinId.

(** An entry of ['data'] in the answer of the map request.  The keys
    ['is_active'] and ['rank'] are read with [get] and may be missing. *)
Record Coin := mkCoin {
  c_id : Z;
  c_name : Py.str;
  c_symbol : Py.str;
  c_slug : Py.str;
  c_is_active : option Z;
  c_rank : option Z
}.

(** A dictionary of the list that [find_coin_by_symbol] returns. *)
Record Match := mkMatch {
  m_id : Z;
  m_name : Py.str;
  m_symbol : Py.str;
  m_slug : Py.str;
  m_is_active : Z;
  m_rank : Z
}.

(** What a request gives: the message of a [RequestException], or the JSON
    object of the answer, in which the key ['data'] may be missing. *)
Definition Answer (A : Type) : Type := (string + option (list A))%type.

Definition match_of (coin : Coin) : Match :=
  mkMatch (c_id coin) (c_name coin) (c_symbol coin) (c_slug coin)
          (default 1 (c_is_active coin)) (default 999999 (c_rank coin)).

(** [coin['symbol'].upper() == symbol.upper()] *)
Definition same_symbol (symbol : Py.str) (coin : Coin) : bool :=
  Py.str_eqb (Py.upper (c_symbol coin)) (Py.upper symbol).

(** [not x['is_active']] *)
Definition inactive (m : Match) : bool := m_is_active m =? 0.

(** The order of the keys [(not x['is_active'], x['rank'])]: [False] before
    [True], then the ranks. *)
Definition key_le (a b : Match) : bool :=
  if Bool.eqb (inactive a) (inactive b) then m_rank a <=? m_rank b
  else negb (inactive a).

(** Lines 18-50.  [answer] is what the request of this call gives. *)
Definition find_coin_by_symbol (symbol api_key : Py.str)
    (answer : Answer Coin) : list out_line * list Match :=
  match answer with
  | inl msg => ([PrintExn "Error fetching data: " (Py.Error msg)], [])
  | inr data =>
    let matches :=
      map match_of (List.filter (same_symbol symbol) (default [] data)) in
    ([], Py.sort_by key_le matches)
  end.

(** [print] of a Python string. *)
Definition say (s : Py.str) : out_line := Print (string_of_list_ascii s).

Section Script.

(** The prices are floating point numbers: their type, the test
    [price > 0.01] and the two formats [,.2f] and [.6f] are taken as
    given, and so is the text of [parser.print_help()]. *)
Variable F : Type.
Variable gt_cent : F -> bool.
Variable fmt_2f : F -> Py.str.
Variable fmt_6f : F -> Py.str.
Variable help_text : string.

(** An entry of ['data'] in the answer of the listings request, with
    [coin['quote']['USD']['price']] as [l_price]. *)
Record Listing := mkListing {
  l_id : Z;
  l_name : Py.str;
  l_symbol : Py.str;
  l_slug : Py.str;
  l_cmc_rank : Z;
  l_price : F
}.

(** A dictionary of the list that [get_top_coins] returns. *)
Record TopCoin := mkTopCoin {
  t_id : Z;
  t_name : Py.str;
  t_symbol : Py.str;
  t_slug : Py.str;
  t_rank : Z;
  t_price : F
}.

(** Lines 52-84. *)
Definition get_top_coins (limit : Z) (api_key : Py.str)
    (answer : Answer Listing) : list out_line * list TopCoin :=
  match answer with
  | inl msg => ([PrintExn "Error fetching data: " (Py.Error msg)], [])
  | inr data =>
    ([], map (fun coin => mkTopCoin (l_id coin) (l_name coin) (l_symbol coin)
                            (l_slug coin) (l_cmc_rank coin) (l_price coin))
             (default [] data))
  end.

(** The arguments as [argparse] hands them over. *)
Record Args := mkArgs {
  symbols : list Py.str;
  list_top : option Z;
  api_key : Py.str
}.

(** The network: the answer to the [k]-th map request of the run, and the
    answer to the listings request. *)
Record Net := mkNet {
  map_answer : nat -> Answer Coin;
  listings_answer : Answer Listing
}.

(** Lines 117-118: the line of one coin of the top list. *)
Definition top_row (coin : TopCoin) : out_line :=
  let price_str :=
    if gt_cent (t_price coin) then Py.lit "$" ++ fmt_2f (t_price coin)
    else Py.lit "$" ++ fmt_6f (t_price coin) in
  say (Py.ljust 5 (Py.str_int (t_rank coin)) ++ Py.lit " " ++
       Py.ljust 6 (Py.str_int (t_id coin)) ++ Py.lit " " ++
       Py.ljust 8 (t_symbol coin) ++ Py.lit " " ++
       Py.ljust 25 (t_name coin) ++ Py.lit " " ++
       Py.ljust 12 price_str).

(** Lines 109-123: the list of the top coins. *)
Definition main_top (n : Z) (args : Args) (net : Net) : list out_line :=
  let '(out_get, coins) :=
    get_top_coins n (api_key args) (listings_answer net) in
  [say (Py.lit "Top " ++ Py.str_int n ++ Py.lit " cryptocurrencies:");
   say (Py.rule "=" 60);
   say (Py.ljust 5 (Py.lit "Rank") ++ Py.lit " " ++
        Py.ljust 6 (Py.lit "ID") ++ Py.lit " " ++
        Py.ljust 8 (Py.lit "Symbol") ++ Py.lit " " ++
        Py.ljust 25 (Py.lit "Name") ++ Py.lit " " ++
        Py.ljust 12 (Py.lit "Price"));
   say (Py.rule "-" 60)] ++
  out_get ++ map top_row coins ++
  match coins with
  | [] => []
  | _ =>
    [say (Py.LF :: Py.lit "First 10 IDs for web configuration: " ++
          Py.join (Py.lit ",")
            (map (fun coin => Py.str_int (t_id coin)) (firstn 10 coins)))]
  end.

(** Lines 143-148: the three lines of the [i]-th match. *)
Definition match_rows (i : nat) (coin : Match) : list out_line :=
  let status :=
    if m_is_active coin =? 0 then Py.lit "âŒ INACTIVE"
    else Py.lit "âœ… ACTIVE" in
  let rank_str :=
    if m_rank coin =? 999999 then Py.lit "Unranked"
    else Py.lit "Rank #" ++ Py.str_int (m_rank coin) in
  [say (Py.str_int (Z.of_nat i + 1) ++ Py.lit ". " ++ m_name coin ++
        Py.lit " (" ++ m_symbol coin ++ Py.lit ")");
   say (Py.lit "   ID: " ++ Py.str_int (m_id coin) ++ Py.lit " | " ++ status ++
        Py.lit " | " ++ rank_str);
   say (Py.lit "   Slug: " ++ m_slug coin)].

(** Lines 131-156: the loop over the symbols.  [k] counts the requests made
    so far, [all_ids] is the list the loop appends to. *)
Fixpoint symbols_loop (net : Net) (key : Py.str) (todo : list Py.str)
    (k : nat) (all_ids : list Z) : list out_line * list Z :=
  match todo with
  | [] => ([], all_ids)
  | symbol :: rest =>
    let head :=
      [say (Py.LF :: Py.lit "Searching for '" ++ Py.upper symbol ++ Py.lit "':");
       say (Py.rule "=" 40)] in
    let '(out_find, matches) :=
      find_coin_by_symbol symbol key (map_answer net k) in
    match matches with
    | [] =>
      let '(out_rest, ids) := symbols_loop net key rest (S k) all_ids in
      (head ++ out_find ++
       [say (Py.lit "âŒ No coins found for symbol '" ++ symbol
             ++ Py.lit "'")] ++ out_rest, ids)
    | best :: _ =>
      let '(out_rest, ids) :=
        symbols_loop net key rest (S k) (all_ids ++ [m_id best]) in
      (head ++ out_find ++ concat (imap match_rows matches) ++
       [say (Py.LF :: Py.lit "ðŸ’¡ Recommended: " ++ m_name best
             ++ Py.lit " (ID: " ++ Py.str_int (m_id best) ++ Py.lit ")")]
       ++ out_rest, ids)
    end
  end.

(** Lines 126-162: the search for the symbols given. *)
Definition main_symbols (args : Args) (net : Net) : list out_line :=
  match symbols args with
  | [] => [Print help_text]
  | _ =>
    let '(out, all_ids) :=
      symbols_loop net (api_key args) (symbols args) 0 [] in
    out ++
    match all_ids with
    | [] => []
    | _ =>
      [say (Py.LF :: Py.lit "ðŸ”— Combined IDs for web configuration:");
       say (Py.lit "Coin IDs: " ++
            Py.join (Py.lit ",") (map Py.str_int all_ids))]
    end
  end.

(** Lines 86-162.  [if args.list_top:] holds for a number other than 0. *)
Definition main (args : Args) (net : Net) : list out_line :=
  match list_top args with
  | Some n => if n =? 0 then main_symbols args net else main_top n args net
  | None => main_symbols args net
  end.

End Script.

End FindCoinId.

(** Two elements have the same key: each is below the other. *)
Definition same_key {A : Type} (le : A -> A -> bool) (a b : A) : bool :=
  le a b && le b a.

(** The ID that a list of matches adds to the combined IDs. *)
Definition first_id (ms : list FindCoinId.Match) : list Z :=
  match ms with
  | best :: _ => [FindCoinId.m_id best]
  | [] => []
  end.

(** A map answer with three coins of symbol ETH, in three spellings, and
    one of symbol BTC. *)
Definition sample_coins : list FindCoinId.Coin :=
  [FindCoinId.mkCoin 99 (Py.lit "Ethereum Old") (Py.lit "eth")
     (Py.lit "eth-old") (Some 0) (Some 1);
   FindCoinId.mkCoin 5 (Py.lit "EthX") (Py.lit "Eth") (Py.lit "ethx")
     None None;
   FindCoinId.mkCoin 1027 (Py.lit "Ethereum") (Py.lit "ETH")
     (Py.lit "ethereum") (Some 1) (Some 2);
   FindCoinId.mkCoin 1 (Py.lit "Bitcoin") (Py.lit "BTC") (Py.lit "bitcoin")
     (Some 1) (Some 1)].

(** A network whose second map request fails. *)
Definition sample_net : FindCoinId.Net unit :=
  FindCoinId.mkNet unit
    (fun k => if (k =? 1)%nat then inl "timeout"%string
              else inr (Some sample_coins))
    (inr None).

Definition sample_args : FindCoinId.Args :=
  FindCoinId.mkArgs [Py.lit "eth"; Py.lit "doge"; Py.lit "btc"] None
    (Py.lit "KEY").

(** ** find_binance_symbols.py *)

Module Binance.

(** An entry of ['symbols'] in the exchange information. *)
Record Pair := mkPair {
  p_status : Py.str;
  p_symbol : Py.str;
  p_baseAsset : Py.str;
  p_quoteAsset : Py.str
}.

(** The JSON object of the exchange information: the key ['symbols'] may be
    missing, and there may or may not be other keys.  The empty dictionary
    has neither. *)
Record ExchangeInfo := mkInfo {
  ei_symbols : option (list Pair);
  ei_other_keys : bool
}.

Definition empty_dict : ExchangeInfo := mkInfo None false.

(** The truth value of the dictionary: it is not empty. *)
Definition truthy (info : ExchangeInfo) : bool :=
  match ei_symbols info with
  | Some _ => true
  | None => ei_other_keys info
  end.

(** What the request gives: the message of a [RequestException], or the JSON
    object of the answer. *)
Definition Answer : Type := (string + ExchangeInfo)%type.

Definition say (s : Py.str) : out_line := Print (string_of_list_ascii s).

(** Lines 29-37. *)
Definition get_exchange_info (answer : Answer) : list out_line * ExchangeInfo :=
  match answer with
  | inl msg =>
    ([PrintExn "Error fetching exchange info: " (Py.Error msg)], empty_dict)
  | inr info => ([], info)
  end.

Inductive MatchType := exact | usdt_pair | other_pair.

(** A tuple [(symbol, base, quote, match_type)] of the list [matches]. *)
Record Found := mkFound {
  f_symbol : Py.str;
  f_base : Py.str;
  f_quote : Py.str;
  f_type : MatchType
}.

(** The dictionary of line 87. *)
Definition priority (t : MatchType) : Z :=
  match t with
  | exact => 0
  | usdt_pair => 1
  | other_pair => 2
  end.

(** The dictionary of lines 91-95. *)
Definition match_desc (t : MatchType) : Py.str :=
  match t with
  | exact => Py.lit "Exact match"
  | usdt_pair => Py.lit "USDT pair"
  | other_pair => Py.lit "Other pair"
  end.

(** Lines 67-82: what one pair adds to [matches]. *)
Definition classify (symbol_upper : Py.str) (pair : Pair) : list Found :=
  if negb (Py.str_eqb (p_status pair) (Py.lit "TRADING")) then []
  else
    let symbol := p_symbol pair in
    let base := p_baseAsset pair in
    let quote := p_quoteAsset pair in
    if Py.str_eqb symbol symbol_upper then [mkFound symbol base quote exact]
    else if Py.str_eqb base symbol_upper && Py.str_eqb quote (Py.lit "USDT")
    then [mkFound symbol base quote usdt_pair]
    else if Py.str_eqb base symbol_upper
    then [mkFound symbol base quote other_pair]
    else [].

(** Lines 62-82: the list [matches] of one symbol. *)
Definition matches_of (trading_pairs : list Pair) (symbol_search : Py.str)
  : list Found :=
  flat_map (classify (Py.upper symbol_search)) trading_pairs.

(** The order of the keys of line 87. *)
Definition by_priority (a b : Found) : bool :=
  priority (f_type a) <=? priority (f_type b).

(** Lines 87-89: the matches that are listed. *)
Definition listed (trading_pairs : list Pair) (symbol_search : Py.str)
  : list Found :=
  firstn 10 (Py.sort_by by_priority (matches_of trading_pairs symbol_search)).

(** Line 96. *)
Definition match_row (m : Found) : out_line :=
  say (Py.lit "  " ++ Py.ljust 15 (f_symbol m) ++ Py.lit " (" ++ f_base m ++
       Py.lit "/" ++ f_quote m ++ Py.lit ") - " ++ match_desc (f_type m)).

(** Lines 84-98: the lines printed for one symbol. *)
Definition symbol_lines (trading_pairs : list Pair) (symbol_search : Py.str)
  : list out_line :=
  match matches_of trading_pairs symbol_search with
  | [] =>
    [say (Py.LF :: Py.lit "No matches found for '" ++ symbol_search
          ++ Py.lit "'")]
  | _ =>
    say (Py.LF :: Py.lit "Found matches for '" ++ symbol_search ++ Py.lit "':")
    :: map match_row (listed trading_pairs symbol_search)
  end.

(** The list [found_pairs] after the loop over the symbols. *)
Definition found_pairs (trading_pairs : list Pair) (symbols : list Py.str)
  : list Py.str :=
  flat_map (fun symbol_search =>
              map f_symbol (listed trading_pairs symbol_search))
           symbols.

(** Line 102. *)
Definition usdt_pairs_of (found : list Py.str) : list Py.str :=
  List.filter (fun pair => Py.endswith pair (Py.lit "USDT")) found.

(** Lines 100-107. *)
Definition recommendation (found : list Py.str) : list out_line :=
  match found with
  | [] => []
  | _ =>
    match usdt_pairs_of found with
    | [] => []
    | usdt_pairs =>
      [say (Py.LF :: Py.lit "📝 Recommended USDT pairs for CYD configuration:");
       say (Py.lit "   " ++ Py.join (Py.lit ",") (firstn 6 usdt_pairs))] ++
      (if (6 <? length usdt_pairs)%nat
       then [say (Py.lit "   (Limited to 6 pairs - CYD maximum)")]
       else [])
    end
  end.

(** Lines 49-107. *)
Definition find_symbols (symbols : list Py.str) (answer : Answer)
  : list out_line :=
  let head :=
    [say (Py.lit "Searching for symbols: " ++ Py.join (Py.lit ", ") symbols);
     say (Py.rule "-" 50)] in
  let '(out_get, exchange_info) := get_exchange_info answer in
  if negb (truthy exchange_info) then head ++ out_get
  else
    let trading_pairs := default [] (ei_symbols exchange_info) in
    head ++ out_get ++
    flat_map (symbol_lines trading_pairs) symbols ++
    recommendation (found_pairs trading_pairs symbols).

(** Lines 236-241: the sorted symbols of the USDT pairs that trade. *)
Definition trading_usdt (trading_pairs : list Pair) : list Py.str :=
  Py.sort_by Py.str_leb
    (map p_symbol
       (List.filter
          (fun pair => Py.str_eqb (p_status pair) (Py.lit "TRADING")
                       && Py.str_eqb (p_quoteAsset pair) (Py.lit "USDT"))
          trading_pairs)).

(** Lines 247-249: the rows of four. *)
Definition rows (usdt_pairs : list Py.str) : list (list Py.str) :=
  map (fun i => Py.slice usdt_pairs i (i + 4))
      (Py.range_step (Nat.min 100 (length usdt_pairs)) 4).

Definition popular_symbols : list Py.str :=
  map Py.lit ["BTC"; "ETH"; "BNB"; "ADA"; "SOL"; "DOGE"; "MATIC"; "DOT";
              "AVAX"; "LINK"]%string.

(** Lines 255-258. *)
Definition popular_of (usdt_pairs : list Py.str) : list Py.str :=
  List.filter (fun pair => existsb (Py.startswith pair) popular_symbols)
              usdt_pairs.

(** Lines 226-262. *)
Definition show_usdt_pairs (answer : Answer) : list out_line :=
  let head :=
    [say (Py.lit "All available USDT trading pairs:");
     say (Py.rule "-" 50)] in
  let '(out_get, exchange_info) := get_exchange_info answer in
  if negb (truthy exchange_info) then head ++ out_get
  else
    let trading_pairs := default [] (ei_symbols exchange_info) in
    let usdt_pairs := trading_usdt trading_pairs in
    head ++ out_get ++
    [say (Py.lit "Total USDT pairs available: "
          ++ Py.str_int (Z.of_nat (length usdt_pairs)));
     say (Py.LF :: Py.lit "Pairs (showing first 100):")] ++
    map (fun row => say (Py.join (Py.lit "  ") (map (Py.ljust 15) row)))
        (rows usdt_pairs) ++
    (if (100 <? length usdt_pairs)%nat
     then [say (Py.LF :: Py.lit "... and "
                ++ Py.str_int (Z.of_nat (length usdt_pairs) - 100)
                ++ Py.lit " more pairs")]
     else []) ++
    match popular_of usdt_pairs with
    | [] => []
    | popular_pairs =>
      [say (Py.LF :: Py.lit "📝 Popular pairs for CYD configuration:");
       say (Py.lit "   " ++ Py.join (Py.lit ",") (firstn 6 popular_pairs))]
    end.

End Binance.

(** An exchange information with five pairs, one of them halted. *)
Definition sample_info : Binance.ExchangeInfo :=
  Binance.mkInfo
    (Some
       [Binance.mkPair (Py.lit "TRADING") (Py.lit "ETHBTC") (Py.lit "ETH")
          (Py.lit "BTC");
        Binance.mkPair (Py.lit "TRADING") (Py.lit "ETHUSDT") (Py.lit "ETH")
          (Py.lit "USDT");
        Binance.mkPair (Py.lit "BREAK") (Py.lit "BTCUSDT") (Py.lit "BTC")
          (Py.lit "USDT");
        Binance.mkPair (Py.lit "TRADING") (Py.lit "BTCEUR") (Py.lit "BTC")
          (Py.lit "EUR");
        Binance.mkPair (Py.lit "TRADING") (Py.lit "ADAUSDT") (Py.lit "ADA")
          (Py.lit "USDT")])
    true.

(** * Properties *)

(** ** Text primitives *)

Lemma startswith_spec (p s : list ascii) :
  Py.startswith s p = true <-> exists post, s = p ++ post.
Proof.
  revert s. induction p as [|a p IH]; intros s; simpl.
  - split; [intros _; by exists s|intros _; by destruct s].
  - destruct s as [|b s].
    + split; [done|intros [post H]; discriminate].
    + simpl. rewrite andb_true_iff, Ascii.eqb_eq, IH. split.
      * intros [-> [post ->]]. by exists post.
      * intros [post H]. injection H as -> ->. eauto.
Qed.

Lemma startswith_app (p post : list ascii) :
  Py.startswith (p ++ post) p = true.
Proof. apply startswith_spec. by exists post. Qed.

Lemma startswith_split (p s : list ascii) :
  Py.startswith s p = true -> s = p ++ skipn (length p) s.
Proof.
  intros H. apply startswith_spec in H as [post ->].
  by rewrite drop_app_length.
Qed.

Lemma occurs_at_0 (sub s : list ascii) :
  occurs_at sub s 0 <-> Py.startswith s sub = true.
Proof.
  rewrite startswith_spec. split.
  - intros (pre & post & -> & Hlen). destruct pre; [|done]. by exists post.
  - intros [post ->]. by exists [], post.
Qed.

Lemma occurs_at_S (sub s : list ascii) c i :
  occurs_at sub (c :: s) (S i) <-> occurs_at sub s i.
Proof.
  split.
  - intros (pre & post & H & Hlen). destruct pre as [|d pre]; [done|].
    injection H as -> ->. exists pre, post. split; [done|]. simpl in Hlen. lia.
  - intros (pre & post & -> & Hlen). exists (c :: pre), post.
    split; [done|]. simpl. lia.
Qed.

Lemma occurs_at_nil (sub : list ascii) i :
  occurs_at sub [] i -> i = 0%nat.
Proof.
  intros (pre & post & H & Hlen). destruct pre; [done|discriminate].
Qed.

Lemma find_unfold (sub s : list ascii) :
  Py.find s sub =
  if Py.startswith s sub then Some 0%nat
  else match s with
       | [] => None
       | _ :: s' => option_map S (Py.find s' sub)
       end.
Proof. by destruct s. Qed.

(** [find] gives the first occurrence, and only that. *)
Lemma find_Some (sub s : list ascii) i :
  Py.find s sub = Some i <-> first_occurrence sub s i.
Proof.
  revert i. induction s as [|c s IH]; intros i; rewrite find_unfold.
  - destruct (Py.startswith [] sub) eqn:Hsw.
    + split.
      * intros [= <-]. split; [by apply occurs_at_0|lia].
      * intros [Hocc _]. by rewrite (occurs_at_nil _ _ Hocc).
    + split; [done|]. intros [Hocc _].
      rewrite (occurs_at_nil _ _ Hocc) in Hocc.
      apply occurs_at_0 in Hocc. congruence.
  - destruct (Py.startswith (c :: s) sub) eqn:Hsw.
    + split.
      * intros [= <-]. split; [by apply occurs_at_0|lia].
      * intros [_ Hmin]. destruct i as [|i]; [done|].
        exfalso. apply (Hmin 0%nat); [lia|by apply occurs_at_0].
    + destruct i as [|i].
      * split; [by destruct (Py.find s sub)|].
        intros [Hocc _]. apply occurs_at_0 in Hocc. congruence.
      * transitivity (Py.find s sub = Some i).
        { destruct (Py.find s sub); simpl; split; congruence. }
        rewrite IH. unfold first_occurrence. rewrite occurs_at_S. split.
        -- intros [Hocc Hmin]. split; [done|]. intros [|j] Hj.
           ++ rewrite occurs_at_0. congruence.
           ++ rewrite occurs_at_S. apply Hmin. lia.
        -- intros [Hocc Hmin]. split; [done|]. intros j Hj.
           rewrite <- (occurs_at_S _ _ c). apply Hmin. lia.
Qed.

(** [find] fails exactly when there is no occurrence. *)
Lemma find_None (sub s : list ascii) :
  Py.find s sub = None <-> forall i, ~ occurs_at sub s i.
Proof.
  induction s as [|c s IH]; rewrite find_unfold.
  - destruct (Py.startswith [] sub) eqn:Hsw.
    + split; [done|]. intros H. exfalso. apply (H 0%nat). by apply occurs_at_0.
    + split; [|done]. intros _ i Hocc.
      rewrite (occurs_at_nil _ _ Hocc) in Hocc.
      apply occurs_at_0 in Hocc. congruence.
  - destruct (Py.startswith (c :: s) sub) eqn:Hsw.
    + split; [done|]. intros H. exfalso. apply (H 0%nat). by apply occurs_at_0.
    + transitivity (Py.find s sub = None).
      { destruct (Py.find s sub); simpl; split; congruence. }
      rewrite IH. split.
      * intros H [|i]; [rewrite occurs_at_0; congruence|].
        rewrite occurs_at_S. apply H.
      * intros H i. rewrite <- (occurs_at_S _ _ c). apply H.
Qed.

Lemma universal_newlines_no_cr_aux n : forall s,
  (length s <= n)%nat -> no_cr (Py.universal_newlines s).
Proof.
  induction n as [|n IH]; intros s Hlen.
  - destruct s; [constructor|simpl in Hlen; lia].
  - destruct s as [|c s]; [constructor|]. simpl in Hlen. simpl.
    destruct (Ascii.eqb c Py.CR) eqn:Hc.
    + constructor; [reflexivity|].
      destruct s as [|d s]; [constructor|]. simpl in Hlen.
      destruct (Ascii.eqb d Py.LF); apply IH; simpl; lia.
    + constructor; [done|]. apply IH. lia.
Qed.

(** A text read from a file has no carriage return left. *)
Lemma read_text_no_cr data : no_cr (Py.read_text data).
Proof.
  by apply (universal_newlines_no_cr_aux (length (map ascii_of_byte data))).
Qed.

Lemma slice_no_cr s i j : no_cr s -> no_cr (Py.slice s i j).
Proof. intros H. unfold Py.slice. by apply Forall_take, Forall_drop. Qed.

(** ** The token search *)

Section Tokens.

Variable key : list ascii.
Variable cls : ascii -> bool.

Lemma span_while_split s :
  exists post,
    s = Py.span_while cls s ++ post /\
    forallb cls (Py.span_while cls s) = true /\ class_stops cls post.
Proof.
  induction s as [|c s (post & Hs & Hall & Hstop)]; [by exists []|].
  simpl. destruct (cls c) eqn:Hc.
  - exists post. simpl. rewrite Hc, Hall. by rewrite <- Hs.
  - by exists (c :: s).
Qed.

Lemma span_while_unique g post :
  forallb cls g = true -> class_stops cls post ->
  Py.span_while cls (g ++ post) = g.
Proof.
  intros Hall Hstop. induction g as [|c g IH]; simpl in *.
  - destruct post as [|c post]; [reflexivity|]. simpl in *. by rewrite Hstop.
  - apply andb_true_iff in Hall as [-> Hall]. f_equal. by apply IH.
Qed.

Lemma match_token_here_spec s g :
  Py.match_token_here key cls s = Some g <-> token_at key cls s 0 g.
Proof.
  unfold Py.match_token_here. split.
  - destruct (Py.startswith s key) eqn:Hsw; [|done].
    apply startswith_split in Hsw.
    destruct (span_while_split (skipn (length key) s))
      as (post & Hs & Hall & Hstop).
    destruct (Py.span_while cls (skipn (length key) s)) as [|a run] eqn:E;
      [done|].
    intros [= <-]. exists [], post. repeat split; try done.
    rewrite Hs in Hsw. exact Hsw.
  - intros (pre & post & -> & Hlen & Hne & Hall & Hstop).
    destruct pre; [|done]. simpl.
    rewrite startswith_app, drop_app_length.
    rewrite (span_while_unique _ _ Hall Hstop). by destruct g.
Qed.

Lemma token_at_S c s i g :
  token_at key cls (c :: s) (S i) g <-> token_at key cls s i g.
Proof.
  split.
  - intros (pre & post & H & Hlen & Hrest).
    destruct pre as [|d pre]; [done|]. injection H as -> ->.
    exists pre, post. split; [done|]. split; [simpl in Hlen; lia|done].
  - intros (pre & post & -> & Hlen & Hrest). exists (c :: pre), post.
    split; [done|]. split; [simpl; lia|done].
Qed.

Lemma token_at_nil i g : ~ token_at key cls [] i g.
Proof.
  intros (pre & post & H & _ & Hne & _).
  destruct pre; [|discriminate]. destruct key; [|discriminate].
  destruct g; [done|discriminate].
Qed.

Lemma re_search_unfold s :
  Py.re_search_group key cls s =
  match Py.match_token_here key cls s with
  | Some g => Some g
  | None => match s with
            | [] => None
            | _ :: s' => Py.re_search_group key cls s'
            end
  end.
Proof. by destruct s. Qed.

(** The search returns the value of the leftmost token. *)
Lemma re_search_Some s g :
  Py.re_search_group key cls s = Some g <->
  exists i, first_token key cls s i g.
Proof.
  induction s as [|c s IH]; rewrite re_search_unfold.
  - destruct (Py.match_token_here key cls []) as [g0|] eqn:E.
    + apply match_token_here_spec in E. by apply token_at_nil in E.
    + split; [done|]. intros (i & H & _). by apply token_at_nil in H.
  - destruct (Py.match_token_here key cls (c :: s)) as [g0|] eqn:E.
    + split.
      * intros [= ->]. exists 0%nat. split; [|lia].
        by apply match_token_here_spec.
      * intros ([|i] & Hat & Hmin).
        -- apply match_token_here_spec in Hat. congruence.
        -- exfalso. apply (Hmin 0%nat g0); [lia|].
           by apply match_token_here_spec.
    + rewrite IH. split.
      * intros (i & Hat & Hmin). exists (S i). split; [by apply token_at_S|].
        intros [|j] g' Hj.
        -- rewrite <- match_token_here_spec. congruence.
        -- rewrite token_at_S. apply Hmin. lia.
      * intros ([|i] & Hat & Hmin).
        -- apply match_token_here_spec in Hat. congruence.
        -- exists i. split; [by apply token_at_S in Hat|].
           intros j g' Hj. rewrite <- (token_at_S c). apply Hmin. lia.
Qed.

(** The search fails exactly when there is no token. *)
Lemma re_search_None s :
  Py.re_search_group key cls s = None <-> token_absent key cls s.
Proof.
  induction s as [|c s IH]; rewrite re_search_unfold.
  - destruct (Py.match_token_here key cls []) as [g0|] eqn:E.
    + apply match_token_here_spec in E. by apply token_at_nil in E.
    + split; [|done]. intros _ i g. apply token_at_nil.
  - destruct (Py.match_token_here key cls (c :: s)) as [g0|] eqn:E.
    + split; [done|]. intros H. exfalso. apply (H 0%nat g0).
      by apply match_token_here_spec.
    + rewrite IH. split.
      * intros H [|i] g.
        -- rewrite <- match_token_here_spec. congruence.
        -- rewrite token_at_S. apply H.
      * intros H i g. rewrite <- (token_at_S c). apply H.
Qed.

Lemma re_search_class s g :
  Py.re_search_group key cls s = Some g -> forallb cls g = true.
Proof.
  intros H. apply re_search_Some in H as (i & Hat & _).
  by destruct Hat as (pre & post & _ & _ & _ & Hall & _).
Qed.

End Tokens.

(** ** Metadata *)

Lemma metadata_width section :
  width (metadata_of section) =
  match Py.re_search_group (Py.lit "WIDTH:") Py.is_digit section with
  | Some g => Py.int_of_digits g
  | None => 240
  end.
Proof.
  unfold metadata_of, extract_metadata.
  by destruct (Py.re_search_group (Py.lit "WIDTH:") Py.is_digit section),
    (Py.re_search_group (Py.lit "HEIGHT:") Py.is_digit section).
Qed.

Lemma metadata_height section :
  height (metadata_of section) =
  match Py.re_search_group (Py.lit "HEIGHT:") Py.is_digit section with
  | Some g => Py.int_of_digits g
  | None => 320
  end.
Proof.
  unfold metadata_of, extract_metadata.
  by destruct (Py.re_search_group (Py.lit "WIDTH:") Py.is_digit section),
    (Py.re_search_group (Py.lit "HEIGHT:") Py.is_digit section).
Qed.

Lemma metadata_format section :
  img_format (metadata_of section) =
  Py.re_search_group (Py.lit "FORMAT:") Py.is_word section.
Proof.
  unfold metadata_of, extract_metadata.
  by destruct (Py.re_search_group (Py.lit "WIDTH:") Py.is_digit section),
    (Py.re_search_group (Py.lit "HEIGHT:") Py.is_digit section).
Qed.

Lemma digit_value_nonneg c : Py.is_digit c = true -> 0 <= Z.of_N (Py.code c) - 48.
Proof.
  unfold Py.is_digit, Py.in_range. intros H.
  apply andb_true_iff in H as [H _]. apply N.leb_le in H. lia.
Qed.

Lemma fold_digits_nonneg ds : forall acc,
  forallb Py.is_digit ds = true -> 0 <= acc ->
  0 <= fold_left (fun acc c => 10 * acc + (Z.of_N (Py.code c) - 48)) ds acc.
Proof.
  induction ds as [|c ds IH]; intros acc Hall Hacc; [done|]. simpl in *.
  apply andb_true_iff in Hall as [Hc Hall]. apply IH; [done|].
  pose proof (digit_value_nonneg _ Hc). lia.
Qed.

Lemma int_of_digits_nonneg ds :
  forallb Py.is_digit ds = true -> 0 <= Py.int_of_digits ds.
Proof. intros H. by apply fold_digits_nonneg. Qed.

(** [int_of_digits] reads base 10, most significant digit first. *)
Lemma int_of_digits_snoc ds c :
  Py.int_of_digits (ds ++ [c]) =
  10 * Py.int_of_digits ds + (Z.of_N (Py.code c) - 48).
Proof. unfold Py.int_of_digits. by rewrite fold_left_app. Qed.

(** ** Hex lines *)

Lemma split_lines_LF s :
  split_lines (Py.LF :: s) = [] :: split_lines s.
Proof. reflexivity. Qed.

Lemma split_lines_cons c s :
  Ascii.eqb c Py.LF = false ->
  split_lines (c :: s) = (c :: first_line s) :: tl (split_lines s).
Proof.
  intros Hc. unfold first_line. simpl. rewrite Hc.
  destruct s as [|d s]; [reflexivity|].
  destruct (split_lines (d :: s)) eqn:E; [|reflexivity].
  simpl in E. destruct (Ascii.eqb d Py.LF); [discriminate|].
  destruct (split_lines s); discriminate.
Qed.

Lemma span_first_line s :
  let run := Py.span_while Py.is_hexdigit s in
  Py.at_line_end (skipn (length run) s) = forallb Py.is_hexdigit (first_line s) /\
  (forallb Py.is_hexdigit (first_line s) = true -> run = first_line s).
Proof.
  induction s as [|c s [IH1 IH2]]; [by split|].
  cbv zeta. simpl Py.span_while.
  destruct (Ascii.eqb c Py.LF) eqn:Hc.
  - apply Ascii.eqb_eq in Hc as ->. by split.
  - unfold first_line. rewrite (split_lines_cons _ _ Hc). simpl hd.
    destruct (Py.is_hexdigit c) eqn:Hh; simpl.
    + rewrite Hh. split; [apply IH1|]. intros H. f_equal. by apply IH2.
    + rewrite Hh, Hc. by split.
Qed.

(** An attempt at the start of a line succeeds when the line is hex only,
    and then matches the whole line. *)
Lemma match_hex_line_first_line s :
  Py.match_hex_line_here s =
  if hex_only (first_line s) then Some (first_line s) else None.
Proof.
  destruct (span_first_line s) as [H1 H2]. unfold Py.match_hex_line_here.
  destruct (Py.span_while Py.is_hexdigit s) as [|a run] eqn:E.
  - destruct (forallb Py.is_hexdigit (first_line s)) eqn:Hall.
    + by rewrite <- H2.
    + unfold hex_only. rewrite Hall. by destruct (first_line s).
  - rewrite H1. destruct (forallb Py.is_hexdigit (first_line s)) eqn:Hall.
    + rewrite <- (H2 eq_refl) in *. unfold hex_only. by rewrite Hall.
    + unfold hex_only. rewrite Hall. by destruct (first_line s).
Qed.

Lemma first_line_prefix s :
  firstn (length (first_line s)) s = first_line s /\
  Forall (fun c => Ascii.eqb c Py.LF = false) (first_line s).
Proof.
  induction s as [|c s [IH1 IH2]]; [by split|].
  destruct (Ascii.eqb c Py.LF) eqn:Hc.
  - apply Ascii.eqb_eq in Hc as ->. by split.
  - unfold first_line. rewrite (split_lines_cons _ _ Hc). simpl.
    split; [by f_equal|by constructor].
Qed.

Lemma filter_cons_if {A} (f : A -> bool) x l :
  List.filter f (x :: l) =
  if f x then x :: List.filter f l else List.filter f l.
Proof. reflexivity. Qed.

(** The scan, at the start of a line and inside a line.  Inside a line (after
    a failed attempt, or while a match is passed over) nothing is found up
    to the next line feed. *)
Lemma findall_scan_lines s :
  (forall prev, Py.at_line_start prev = true ->
     Py.findall_scan prev 0 s = List.filter hex_only (split_lines s)) /\
  (forall prev k,
     Forall (fun c => Ascii.eqb c Py.LF = false) (firstn k s) ->
     (k = 0%nat -> Py.at_line_start prev = false) ->
     Py.findall_scan prev k s = List.filter hex_only (tl (split_lines s))).
Proof.
  induction s as [|c s [IHa IHb]]; [by split|]. split.
  - intros prev Hprev. simpl Py.findall_scan. rewrite Hprev.
    rewrite match_hex_line_first_line.
    destruct (Ascii.eqb c Py.LF) eqn:Hc.
    + apply Ascii.eqb_eq in Hc as ->. rewrite split_lines_LF.
      unfold first_line. rewrite split_lines_LF. simpl.
      by apply IHa.
    + unfold first_line at 1 2. rewrite (split_lines_cons _ _ Hc). simpl hd.
      rewrite filter_cons_if.
      destruct (hex_only (c :: first_line s)) eqn:Hh.
      * f_equal.
        replace (length (c :: first_line s) - 1)%nat
          with (length (first_line s)) by (simpl; lia).
        destruct (first_line_prefix s) as [Hpre Hno].
        apply IHb; [by rewrite Hpre|]. intros _. exact Hc.
      * apply IHb; [constructor|]. intros _. exact Hc.
  - intros prev [|k] Hno Hk.
    + simpl Py.findall_scan. rewrite (Hk eq_refl).
      destruct (Ascii.eqb c Py.LF) eqn:Hc.
      * apply Ascii.eqb_eq in Hc as ->. rewrite split_lines_LF. simpl tl.
        by apply IHa.
      * rewrite (split_lines_cons _ _ Hc). simpl tl.
        apply IHb; [constructor|]. intros _. exact Hc.
    + simpl in Hno. apply Forall_cons in Hno as [Hc Hno].
      simpl Py.findall_scan. rewrite (split_lines_cons _ _ Hc). simpl tl.
      apply IHb; [done|]. intros _. exact Hc.
Qed.

(** [findall] returns the hex-only lines, in order. *)
Lemma findall_hex_lines_filter s :
  Py.findall_hex_lines s = List.filter hex_only (split_lines s).
Proof. by apply findall_scan_lines. Qed.

Lemma rstrip_eol_id l :
  Forall (fun c => is_eol c = false) l -> rstrip_eol l = l.
Proof.
  induction 1 as [|c l Hc _ IH]; [reflexivity|]. simpl. rewrite IH, Hc.
  by destruct l.
Qed.

Lemma split_lines_no_eol s :
  no_cr s -> Forall (Forall (fun c => is_eol c = false)) (split_lines s).
Proof.
  induction 1 as [|c s Hc _ IH]; [by repeat constructor|].
  destruct (Ascii.eqb c Py.LF) eqn:Hlf.
  - apply Ascii.eqb_eq in Hlf as ->. rewrite split_lines_LF.
    by constructor.
  - rewrite (split_lines_cons _ _ Hlf). unfold first_line.
    destruct (split_lines s) as [|l ls]; simpl.
    + repeat constructor. unfold is_eol. by rewrite Hc, Hlf.
    + apply Forall_cons in IH as [Hl Hls]. constructor; [|done].
      constructor; [|done]. unfold is_eol. by rewrite Hc, Hlf.
Qed.

(** Without carriage returns there is nothing to trim. *)
Lemma retained_lines_no_cr s :
  no_cr s ->
  map rstrip_eol (List.filter retained (split_lines s)) =
  List.filter hex_only (split_lines s).
Proof.
  intros H. apply split_lines_no_eol in H.
  induction H as [|l ls Hl _ IH]; [reflexivity|]. simpl.
  unfold retained at 1. rewrite (rstrip_eol_id _ Hl).
  destruct (hex_only l); simpl; [|done].
  by rewrite (rstrip_eol_id _ Hl), IH.
Qed.

Lemma hex_only_inv l :
  hex_only l = true -> l <> [] /\ forallb Py.is_hexdigit l = true.
Proof. destruct l; [done|]. intros H. by split. Qed.

Lemma forallb_concat {A} (f : A -> bool) ls :
  Forall (fun l => forallb f l = true) ls -> forallb f (concat ls) = true.
Proof.
  induction 1 as [|l ls Hl _ IH]; [reflexivity|]. simpl.
  rewrite forallb_app, Hl, IH. reflexivity.
Qed.

(** The hex text is not empty and has hex digits only. *)
Lemma collect_hex_inr section hex_data :
  collect_hex section = inr hex_data ->
  hex_data <> [] /\ forallb Py.is_hexdigit hex_data = true.
Proof.
  unfold collect_hex. rewrite findall_hex_lines_filter.
  destruct (List.filter hex_only (split_lines section)) as [|l ls] eqn:E;
    [done|].
  intros [= <-].
  assert (Forall (fun l => hex_only l = true) (l :: ls)) as Hall.
  { rewrite <- E. apply List.Forall_forall. intros x Hx.
    by apply List.filter_In in Hx as [_ Hx]. }
  split.
  - apply Forall_cons in Hall as [Hl _]. apply hex_only_inv in Hl as [Hl _].
    simpl. by destruct l.
  - apply (forallb_concat _ (l :: ls)). eapply Forall_impl; [exact Hall|].
    intros x Hx. by apply hex_only_inv in Hx as [_ Hx].
Qed.

(** ** Hex decoding *)

Lemma hex_value_is_hexdigit c :
  Py.is_hexdigit c =
  match Py.hex_value c with Some _ => true | None => false end.
Proof.
  unfold Py.is_hexdigit, Py.hex_value.
  destruct (Py.is_digit c); [reflexivity|].
  destruct (Py.in_range 97 102 c); [reflexivity|].
  by destruct (Py.in_range 65 70 c).
Qed.

Lemma space_not_hexdigit c : Py.is_space c = true -> Py.is_hexdigit c = false.
Proof.
  unfold Py.is_space, Py.is_hexdigit, Py.is_digit, Py.in_range.
  intros H. apply orb_true_iff in H as [H|H].
  - apply N.eqb_eq in H. rewrite H. reflexivity.
  - apply andb_true_iff in H as [H1 H2].
    apply N.leb_le in H1, H2.
    repeat (apply orb_false_iff; split); apply andb_false_iff;
      rewrite !N.leb_gt; lia.
Qed.

Lemma fromhex_length_aux n : forall s raw,
  (length s <= n)%nat -> Py.fromhex s = inr raw ->
  hex_digit_count s = (2 * length raw)%nat.
Proof.
  induction n as [|n IH]; intros s raw Hlen H.
  - destruct s; [|simpl in Hlen; lia]. by injection H as <-.
  - destruct s as [|c s]; [by injection H as <-|]. simpl in Hlen, H.
    unfold hex_digit_count. simpl List.filter.
    destruct (Py.is_space c) eqn:Hsp.
    + rewrite (space_not_hexdigit _ Hsp). apply IH; [lia|done].
    + rewrite (hex_value_is_hexdigit c).
      destruct (Py.hex_value c) as [top|]; [|done].
      destruct s as [|d s]; [done|]. simpl List.filter.
      rewrite (hex_value_is_hexdigit d).
      destruct (Py.hex_value d) as [bot|]; [|done].
      destruct (Py.fromhex s) as [e|bs] eqn:E; [done|].
      injection H as <-. simpl in Hlen. simpl length.
      fold (hex_digit_count s). rewrite (IH s bs); [lia|lia|done].
Qed.

(** Two hex digits for each byte. *)
Lemma fromhex_length s raw :
  Py.fromhex s = inr raw -> hex_digit_count s = (2 * length raw)%nat.
Proof. by apply (fromhex_length_aux (length s)). Qed.

Lemma hex_digit_count_all s :
  forallb Py.is_hexdigit s = true -> hex_digit_count s = length s.
Proof.
  unfold hex_digit_count. induction s as [|c s IH]; [reflexivity|]. simpl.
  intros H. apply andb_true_iff in H as [-> H]. simpl. by rewrite IH.
Qed.

(** ** The sample loop *)

Lemma slice_pair (data : list byte) (i : nat) (hi lo : byte) :
  data !! i = Some hi -> data !! (i + 1)%nat = Some lo ->
  Py.slice data i (i + 2) = [hi; lo].
Proof.
  intros Hhi Hlo. unfold Py.slice.
  replace (i + 2 - i)%nat with 2%nat by lia.
  rewrite (drop_S _ _ _ Hhi).
  replace (S i) with (i + 1)%nat by lia.
  rewrite (drop_S _ _ _ Hlo). reflexivity.
Qed.

Lemma slice_last (data : list byte) (i : nat) (b : byte) :
  data !! i = Some b -> length data = S i ->
  Py.slice data i (i + 2) = [b].
Proof.
  intros Hb Hlen. unfold Py.slice.
  rewrite (drop_S _ _ _ Hb), drop_ge by lia.
  replace (i + 2 - i)%nat with 2%nat by lia. reflexivity.
Qed.

Lemma pixel_loop_app data l1 l2 acc :
  pixel_loop data (l1 ++ l2) acc =
  match pixel_loop data l1 acc with
  | inl e => inl e
  | inr px => pixel_loop data l2 px
  end.
Proof.
  revert acc. induction l1 as [|i l1 IH]; intros acc; simpl; [reflexivity|].
  destruct (Py.unpack_be_u16 _); [reflexivity|apply IH].
Qed.

(** While whole samples are left, each turn of the loop appends the pixel of
    the next sample. *)
Lemma pixel_loop_pairs (data : list byte) m : forall k acc,
  (2 * (k + m) <= length data)%nat ->
  pixel_loop data (map (fun j => (2 * j)%nat) (seq k m)) acc =
  inr (acc ++ map (fun j => pixel_of_sample (be_sample data j)) (seq k m)).
Proof.
  induction m as [|m IH]; intros k acc Hlen; simpl.
  - by rewrite app_nil_r.
  - destruct (lookup_lt_is_Some_2 data (2 * k)%nat) as [hi Hhi]; [lia|].
    destruct (lookup_lt_is_Some_2 data (2 * k + 1)%nat) as [lo Hlo]; [lia|].
    replace (k + (k + 0))%nat with (2 * k)%nat by lia.
    rewrite (slice_pair _ _ _ _ Hhi Hlo). simpl.
    rewrite IH by lia. unfold be_sample at 2. rewrite Hhi, Hlo.
    by rewrite <- app_assoc.
Qed.

Lemma range_step2_even n :
  Py.range_step2 (2 * n) = map (fun j => (2 * j)%nat) (seq 0 n).
Proof.
  unfold Py.range_step2. replace (2 * n + 1)%nat with (S (2 * n)) by lia.
  by rewrite Nat.div2_succ_double.
Qed.

Lemma range_step2_odd n :
  Py.range_step2 (2 * n + 1) =
  map (fun j => (2 * j)%nat) (seq 0 n) ++ [(2 * n)%nat].
Proof.
  unfold Py.range_step2.
  replace (2 * n + 1 + 1)%nat with (2 * (S n))%nat by lia.
  rewrite Nat.div2_double, seq_S, map_app. reflexivity.
Qed.

Lemma rgb565_even (data : list byte) n :
  length data = (2 * n)%nat ->
  rgb565_to_rgb888 data =
  inr (map (fun j => pixel_of_sample (be_sample data j)) (seq 0 n)).
Proof.
  intros Hlen. unfold rgb565_to_rgb888.
  rewrite Hlen, range_step2_even, pixel_loop_pairs by lia. reflexivity.
Qed.

Lemma rgb565_odd (data : list byte) n :
  length data = (2 * n + 1)%nat ->
  rgb565_to_rgb888 data = inl Py.StructError.
Proof.
  intros Hlen. unfold rgb565_to_rgb888.
  rewrite Hlen, range_step2_odd, pixel_loop_app, pixel_loop_pairs by lia.
  destruct (lookup_lt_is_Some_2 data (2 * n)%nat) as [b Hb]; [lia|].
  simpl. replace (n + (n + 0))%nat with (2 * n)%nat by lia.
  rewrite (slice_last _ _ _ Hb) by lia. reflexivity.
Qed.

(** ** The run of the script *)

Lemma echo_echo l1 l2 w : echo l2 (echo l1 w) = echo (l1 ++ l2) w.
Proof. unfold echo. simpl. by rewrite app_assoc. Qed.

Lemma extract_none_fs env log_file w w' why :
  extract_screenshot env log_file w = (w', ReturnNone why) -> fs w' = fs w.
Proof.
  unfold extract_screenshot. intros H.
  repeat case_match; simplify_eq; reflexivity.
Qed.

Lemma extract_none_reads_log env log_file w w' why :
  extract_screenshot env log_file w = (w', ReturnNone why) ->
  is_Some (fs w !! log_file).
Proof.
  unfold extract_screenshot. intros H. simpl in H.
  destruct (fs w !! log_file); [eauto|discriminate].
Qed.

(** Where each of the three errors comes from. *)
Lemma extract_none_stage env log_file w w' why :
  extract_screenshot env log_file w = (w', ReturnNone why) ->
  exists data,
    fs w !! log_file = Some data /\
    match why with
    | MissingMarker => locate_section (Py.read_text data) = inl MissingMarker
    | NoPayload =>
      exists section,
        locate_section (Py.read_text data) = inr section /\
        collect_hex section = inl NoPayload
    | InvalidHex =>
      exists section hex_data e,
        locate_section (Py.read_text data) = inr section /\
        collect_hex section = inr hex_data /\
        Py.fromhex hex_data = inl e
    end.
Proof.
  unfold extract_screenshot. intros H. simpl in H.
  destruct (fs w !! log_file) as [data|]; [|discriminate].
  exists data. split; [reflexivity|].
  destruct (locate_section (Py.read_text data)) as [k|section] eqn:Hloc.
  - injection H as _ <-.
    assert (k = MissingMarker) as ->; [|reflexivity].
    unfold locate_section in Hloc. by repeat case_match; simplify_eq.
  - destruct (extract_metadata section) as [out meta].
    destruct (collect_hex section) as [k|hex_data] eqn:Hcol.
    + injection H as _ <-.
      assert (k = NoPayload) as ->; [|eauto].
      unfold collect_hex in Hcol.
      by destruct (Py.findall_hex_lines section); simplify_eq.
    + destruct (Py.fromhex hex_data) as [e|raw_data] eqn:Hhex; [|done].
      injection H as _ <-. eauto 6.
Qed.

Lemma extract_reads_log env log_file w w' raw_file width height timestamp :
  extract_screenshot env log_file w =
    (w', ReturnTuple raw_file width height timestamp) ->
  is_Some (fs w !! log_file).
Proof.
  unfold extract_screenshot. intros H. simpl in H.
  destruct (fs w !! log_file); [eauto|discriminate].
Qed.

(** What a successful extraction has done. *)
Lemma extract_tuple_inv env log_file w w' raw_file wd ht timestamp :
  extract_screenshot env log_file w =
    (w', ReturnTuple raw_file wd ht timestamp) ->
  exists data section hex_data raw_data,
    fs w !! log_file = Some data /\
    locate_section (Py.read_text data) = inr section /\
    collect_hex section = inr hex_data /\
    Py.fromhex hex_data = inr raw_data /\
    wd = width (metadata_of section) /\
    ht = height (metadata_of section) /\
    timestamp = now env /\ raw_file = raw_name (now env) /\
    fs w' = <[raw_file := raw_data]> (fs w).
Proof.
  unfold extract_screenshot, metadata_of. intros H. simpl in H.
  destruct (fs w !! log_file) as [data|]; [|discriminate].
  destruct (locate_section (Py.read_text data)) as [k|section] eqn:Hloc;
    [done|].
  destruct (extract_metadata section) as [out meta] eqn:Hmeta.
  destruct (collect_hex section) as [k|hex_data] eqn:Hcol; [done|].
  destruct (Py.fromhex hex_data) as [e|raw_data] eqn:Hhex; [done|].
  injection H as <- <- <- <- <-.
  exists data, section, hex_data, raw_data. by rewrite Hmeta.
Qed.

(** The raw file of a successful extraction is not empty. *)
Lemma extract_tuple_raw env log_file w w' raw_file width height timestamp :
  extract_screenshot env log_file w =
    (w', ReturnTuple raw_file width height timestamp) ->
  exists raw_data, fs w' !! raw_file = Some raw_data /\ raw_data <> [].
Proof.
  intros H. apply extract_tuple_inv in H
    as (data & section & hex_data & raw_data & _ & _ & Hcol & Hhex & _ & _
        & _ & _ & Hfs).
  exists raw_data. split; [by rewrite Hfs, lookup_insert_eq|].
  apply collect_hex_inr in Hcol as [Hne Hall].
  apply fromhex_length in Hhex. rewrite (hex_digit_count_all _ Hall) in Hhex.
  intros ->. destruct hex_data; [done|simpl in Hhex; lia].
Qed.



Lemma main_fatal env prog log_file w w' why :
  extract_screenshot env log_file w = (w', ReturnNone why) ->
  main env [prog; log_file] w = (w', 1).
Proof.
  intros Hex. unfold main.
  destruct (extract_none_reads_log _ _ _ _ _ Hex) as [data ->].
  by rewrite Hex.
Qed.

(** * The claims *)

(** C1.  A byte sequence of even length [2 * n] is converted without error
    to exactly [n] pixels.  The pixel at position [i] comes from the
    big-endian 16-bit sample [val] made of the bytes at [2 * i] and
    [2 * i + 1], with [r5 = (val >> 11) & 0x1F], [g6 = (val >> 5) & 0x3F],
    [b5 = val & 0x1F], [r8 = (r5 << 3) | (r5 >> 2)],
    [g8 = (g6 << 2) | (g6 >> 4)], [b8 = (b5 << 3) | (b5 >> 2)].  The samples
    0xF800, 0x07E0, 0x001F, 0xFFFF and 0x0000 give red, green, blue, white
    and black. *)
Theorem C1_even_length_pixels (data : list byte) (n : nat) :
  length data = (2 * n)%nat ->
  (exists pixels : list Pixel,
     rgb565_to_rgb888 data = inr pixels /\
     length pixels = n /\
     forall (i : nat) (hi lo : byte),
       data !! (2 * i)%nat = Some hi ->
       data !! (2 * i + 1)%nat = Some lo ->
       let val := 256 * byte_val hi + byte_val lo in
       let r5 := Z.land (Z.shiftr val 11) 0x1F in
       let g6 := Z.land (Z.shiftr val 5) 0x3F in
       let b5 := Z.land val 0x1F in
       let r8 := Z.lor (Z.shiftl r5 3) (Z.shiftr r5 2) in
       let g8 := Z.lor (Z.shiftl g6 2) (Z.shiftr g6 4) in
       let b8 := Z.lor (Z.shiftl b5 3) (Z.shiftr b5 2) in
       pixels !! i = Some (r8, g8, b8)) /\
  pixel_of_sample 0xF800 = (255, 0, 0) /\
  pixel_of_sample 0x07E0 = (0, 255, 0) /\
  pixel_of_sample 0x001F = (0, 0, 255) /\
  pixel_of_sample 0xFFFF = (255, 255, 255) /\
  pixel_of_sample 0x0000 = (0, 0, 0).
Proof.
  intros Hlen. split; [|by repeat split].
  eexists. split; [apply (rgb565_even _ _ Hlen)|].
  split; [by rewrite length_map, length_seq|].
  intros i hi lo Hhi Hlo. cbv zeta.
  assert (i < n)%nat as Hi by (apply lookup_lt_Some in Hlo; lia).
  rewrite list_lookup_fmap, lookup_seq_lt by done. simpl.
  unfold be_sample. replace (i + (i + 0))%nat with (2 * i)%nat by lia.
  rewrite Hhi, Hlo. reflexivity.
Qed.

Lemma C1_even_length_pixels_witness :
  length [xf8; x00; x07; xe0; x00; x1f] = (2 * 3)%nat /\
  exists pixels : list Pixel,
    rgb565_to_rgb888 [xf8; x00; x07; xe0; x00; x1f] = inr pixels /\
    length pixels = 3%nat /\
    pixels !! 1%nat = Some (0, 255, 0).
Proof.
  split; [reflexivity|].
  destruct (C1_even_length_pixels [xf8; x00; x07; xe0; x00; x1f] 3 eq_refl)
    as [(pixels & Hrun & Hlen & Hpix) _].
  exists pixels. split; [exact Hrun|]. split; [exact Hlen|].
  exact (Hpix 1%nat x07 xe0 eq_refl eq_refl).
Defined.

(** C2, as the script has it.  On a byte sequence of odd length the loop
    raises at the last slice, which holds one byte: no list of pixels is
    produced.  Inside [convert_to_png] the generic handler catches the
    error, prints it and returns [None]; no PNG file is written. *)
Theorem C2_odd_length_raises (data : list byte) (n : nat) :
  length data = (2 * n + 1)%nat ->
  rgb565_to_rgb888 data = inl Py.StructError /\
  forall env encode raw_file wd ht timestamp w,
    pil env = Some encode ->
    fs w !! raw_file = Some data ->
    exists out,
      convert_to_png env raw_file wd ht timestamp w =
        (echo (out ++ [PrintExn "Error converting to PNG: " Py.StructError]) w,
         None).
Proof.
  intros Hlen. pose proof (rgb565_odd _ _ Hlen) as Hraise.
  split; [exact Hraise|].
  intros env encode raw_file wd ht timestamp w Hpil Hraw.
  assert (convert_body env raw_file wd ht w = inl Py.StructError) as Hbody.
  { unfold convert_body. by rewrite Hpil, Hraw, Hraise. }
  unfold convert_to_png.
  change (convert_body env raw_file wd ht (echo _ w))
    with (convert_body env raw_file wd ht w).
  rewrite Hbody, echo_echo. eauto.
Qed.

Lemma C2_odd_length_raises_witness :
  length [xf8; x00; x07] = (2 * 1 + 1)%nat /\
  rgb565_to_rgb888 [xf8; x00; x07] = inl Py.StructError.
Proof.
  split; [reflexivity|].
  exact (proj1 (C2_odd_length_raises [xf8; x00; x07] 1 eq_refl)).
Defined.

(** The claim C2 fails on three bytes: the two bytes of the prefix give one
    red pixel, the three bytes give an error and no pixel. *)
Lemma C2_odd_length_counterexample :
  Nat.odd (length [xf8; x00; x07]) = true /\
  rgb565_to_rgb888 (firstn 2 [xf8; x00; x07]) = inr [(255, 0, 0)] /\
  rgb565_to_rgb888 [xf8; x00; x07] = inl Py.StructError /\
  rgb565_to_rgb888 [xf8; x00; x07] <>
    rgb565_to_rgb888 (firstn 2 [xf8; x00; x07]).
Proof. repeat split. discriminate. Qed.

(** C3, as the script has it.  When the start marker first occurs at [i]
    and the end marker first occurs at [j], both searched from the start of
    the text, the section is the slice of the text from [i] up to [j]: when
    [i <= j] it is the [j - i] characters that follow the first [i] and that
    the end marker follows; it begins with the start marker itself when the
    end marker lies behind it, and it is empty when [j <= i], in which case
    the next stage fails with [NoPayload].  When one of the markers does not
    occur at all, the outcome is [MissingMarker]. *)
Theorem C3_locate_section (content : list ascii) :
  (forall i j,
     first_occurrence start_marker content i ->
     first_occurrence end_marker content j ->
     exists section,
       locate_section content = inr section /\
       section = Py.slice content i j /\
       ((i <= j)%nat ->
        exists pre post,
          content = pre ++ section ++ end_marker ++ post /\
          length pre = i /\ length section = (j - i)%nat) /\
       ((i + length start_marker <= j)%nat ->
        exists between, section = start_marker ++ between) /\
       ((j <= i)%nat ->
        section = [] /\ collect_hex section = inl NoPayload)) /\
  ((forall i, ~ occurs_at start_marker content i) \/
   (forall j, ~ occurs_at end_marker content j) ->
   locate_section content = inl MissingMarker).
Proof.
  split.
  - intros i j Hi Hj. exists (Py.slice content i j).
    unfold locate_section.
    rewrite (proj2 (find_Some _ _ _) Hi), (proj2 (find_Some _ _ _) Hj).
    split; [reflexivity|]. split; [reflexivity|].
    destruct Hi as [(p1 & q1 & Hc1 & Hl1) _].
    destruct Hj as [(p2 & q2 & Hc2 & Hl2) _].
    unfold Py.slice. split; [|split].
    + intros Hle. exists p1, q2. split; [|split; [exact Hl1|]].
      2:{ rewrite length_take, length_drop, Hc2, !length_app. lia. }
      assert (p1 ++ firstn (j - i) (skipn i content) = p2) as Hp2.
      { transitivity (firstn j content).
        - replace j with (i + (j - i))%nat at 2 by lia.
          rewrite <- take_take_drop. f_equal.
          by rewrite Hc1, <- Hl1, take_app_length.
        - by rewrite Hc2, <- Hl2, take_app_length. }
      by rewrite app_assoc, Hp2.
    + intros Hle. rewrite Hc1, <- Hl1, drop_app_length, take_app.
      rewrite take_ge by lia. eauto.
    + intros Hle. replace (j - i)%nat with 0%nat by lia. by split.
  - intros H. unfold locate_section. destruct H as [H|H].
    + by rewrite (proj2 (find_None _ _) H).
    + rewrite (proj2 (find_None _ _) H). by destruct (Py.find content _).
Qed.

Lemma C3_locate_section_witness :
  exists section,
    locate_section (Py.lit sample_log) = inr section /\
    exists between, section = start_marker ++ between.
Proof.
  destruct (proj1 (C3_locate_section (Py.lit sample_log)) 8%nat 101%nat)
    as (section & Hloc & _ & _ & Hbetween & _).
  - apply find_Some. vm_compute. reflexivity.
  - apply find_Some. vm_compute. reflexivity.
  - exists section. split; [exact Hloc|]. apply Hbetween. vm_compute. lia.
Defined.

(** The claim C3 fails on three texts.  With the markers around ["AB"] the
    section is not ["AB"]: it begins with the start marker.  With an end
    marker before and another behind the start marker, the section is not
    the text between the start marker and the end marker that follows it:
    it is empty.  With the end marker only before the start marker, the
    outcome is not [MissingMarker]. *)
Lemma C3_locate_section_counterexample :
  locate_section (start_marker ++ Py.lit "AB" ++ end_marker) =
    inr (start_marker ++ Py.lit "AB") /\
  locate_section (start_marker ++ Py.lit "AB" ++ end_marker) <>
    inr (Py.lit "AB") /\
  locate_section
    (end_marker ++ start_marker ++ Py.lit "AB" ++ end_marker) = inr [] /\
  locate_section (end_marker ++ start_marker) = inr [] /\
  locate_section (end_marker ++ start_marker) <> inl MissingMarker.
Proof. repeat split; discriminate. Qed.

(** C4.  In a span of a text read from a file, the lines kept are those that
    are not empty and all hex digits once their trailing carriage returns
    and line feeds are trimmed; the hex text is these lines, trimmed, joined
    in their order with nothing between them; with no line kept the outcome
    is [NoPayload]. *)
Theorem C4_hex_lines_retained (data : list byte) (i j : nat) :
  let span := Py.slice (Py.read_text data) i j in
  let kept := List.filter retained (split_lines span) in
  Py.findall_hex_lines span = map rstrip_eol kept /\
  collect_hex span =
    match kept with
    | [] => inl NoPayload
    | _ => inr (concat (map rstrip_eol kept))
    end.
Proof.
  cbv zeta.
  pose proof (retained_lines_no_cr _
                (slice_no_cr _ i j (read_text_no_cr data))) as Hkept.
  pose proof (findall_hex_lines_filter (Py.slice (Py.read_text data) i j))
    as Hfind.
  split; [by rewrite Hkept|].
  unfold collect_hex. rewrite Hfind, <- Hkept.
  by destruct (List.filter retained _).
Qed.

(** The run with a noise line between two hex lines, written with CR LF
    line ends: only the hex lines are joined, in their order. *)
Example hex_lines_with_noise :
  collect_hex
    (Py.read_text
       (file_of ("F800" +:+ String Py.CR nl +:+ "GARBAGE LINE"
                 +:+ String Py.CR nl +:+ "07e0" +:+ String Py.CR nl)))
  = inr (Py.lit "F80007e0").
Proof. reflexivity. Qed.

(** On a text that did not go through text mode, a carriage return before
    the line feed keeps a line out: [$] does not hold before it.  This is
    why the lines are those of a text read from a file. *)
Example findall_on_unread_text :
  Py.findall_hex_lines (Py.lit ("F800" +:+ String Py.CR nl +:+ "07e0")) =
  [Py.lit "07e0"].
Proof. reflexivity. Qed.

(** C5 at a capture of a 2x1 screen, with Pillow not installed.  The run
    ends with status 0, the raw file holds the four decoded bytes, and the
    lines printed carry the size 2x1.  The layout is given as [RGB565] with
    depth 5 in the first recipe and as [rgb] with depth 16 and
    [-endian LSB] in the second: no line says that the samples are
    big-endian. *)
Theorem C5_recipe_at_sample_capture :
  let '(w, status) := main env_no_pil argv0 (world_with sample_log) in
  status = 0 /\
  fs w !! "screenshot_20250101_120000.raw"%string =
    Some [xf8; x00; x07; xe0] /\
  fs w !! "screenshot_20250101_120000.png"%string = None /\
  stdout w =
    [Print "Reading log file: shot.log";
     Print "Format: RGB565";
     Print "Width: 2";
     Print "Height: 1";
     Print "Found 2 hex data lines";
     Print "Total hex characters: 8";
     Print "Expected bytes: 4";
     Print "Converted to 4 bytes";
     Print "Saved raw file: screenshot_20250101_120000.raw";
     Print (nl +:+ "Converting to PNG: screenshot_20250101_120000.png");
     Print "Error: PIL/Pillow not found";
     Print "Install with: pip install pillow";
     Print "Or use ImageMagick manually:";
     Print "  convert -depth 5 -size 2x1 RGB565:screenshot_20250101_120000.raw screenshot_20250101_120000.png";
     Print (nl +:+ "✓ Raw data saved as: screenshot_20250101_120000.raw");
     Print "  You can manually convert with:";
     Print "  convert -depth 16 -size 2x1 -endian LSB rgb:screenshot_20250101_120000.raw screenshot_20250101_120000.png"].
Proof. vm_compute. repeat split. Qed.

(** C6.  When [extract_screenshot] ends with one of its three errors, [main]
    ends with status 1 and the files are those that were there before: no
    raw file and no PNG file is written.  The error is [MissingMarker] when
    the section is not found, [NoPayload] when the section has no hex line,
    [InvalidHex] when the hex text is not decoded. *)
Theorem C6_fatal_errors_write_nothing env prog log_file w w' why :
  extract_screenshot env log_file w = (w', ReturnNone why) ->
  main env [prog; log_file] w = (w', 1) /\
  fs w' = fs w /\
  exists data,
    fs w !! log_file = Some data /\
    match why with
    | MissingMarker => locate_section (Py.read_text data) = inl MissingMarker
    | NoPayload =>
      exists section,
        locate_section (Py.read_text data) = inr section /\
        collect_hex section = inl NoPayload
    | InvalidHex =>
      exists section hex_data e,
        locate_section (Py.read_text data) = inr section /\
        collect_hex section = inr hex_data /\
        Py.fromhex hex_data = inl e
    end.
Proof.
  intros H. split; [by apply (main_fatal _ _ _ _ _ why)|].
  split; [by apply (extract_none_fs env log_file _ _ why)|].
  by apply (extract_none_stage env _ _ w').
Qed.

Lemma C6_fatal_errors_write_nothing_witness :
  (snd (extract_screenshot env_pil "shot.log" (world_with cut_log))
     = ReturnNone MissingMarker /\
   snd (main env_pil argv0 (world_with cut_log)) = 1 /\
   fs (fst (main env_pil argv0 (world_with cut_log)))
     = fs (world_with cut_log)) /\
  (snd (extract_screenshot env_pil "shot.log" (world_with empty_log))
     = ReturnNone NoPayload /\
   snd (main env_pil argv0 (world_with empty_log)) = 1 /\
   fs (fst (main env_pil argv0 (world_with empty_log)))
     = fs (world_with empty_log)) /\
  (snd (extract_screenshot env_pil "shot.log" (world_with odd_hex_log))
     = ReturnNone InvalidHex /\
   snd (main env_pil argv0 (world_with odd_hex_log)) = 1 /\
   fs (fst (main env_pil argv0 (world_with odd_hex_log)))
     = fs (world_with odd_hex_log)).
Proof.
  split; [|split].
  - destruct (C6_fatal_errors_write_nothing env_pil "extract_screenshot.py"
                "shot.log" (world_with cut_log)
                (fst (extract_screenshot env_pil "shot.log"
                        (world_with cut_log)))
                MissingMarker) as (Hmain & Hfs & _).
    + vm_compute. reflexivity.
    + split; [vm_compute; reflexivity|].
      unfold argv0. rewrite Hmain. split; [reflexivity|exact Hfs].
  - destruct (C6_fatal_errors_write_nothing env_pil "extract_screenshot.py"
                "shot.log" (world_with empty_log)
                (fst (extract_screenshot env_pil "shot.log"
                        (world_with empty_log)))
                NoPayload) as (Hmain & Hfs & _).
    + vm_compute. reflexivity.
    + split; [vm_compute; reflexivity|].
      unfold argv0. rewrite Hmain. split; [reflexivity|exact Hfs].
  - destruct (C6_fatal_errors_write_nothing env_pil "extract_screenshot.py"
                "shot.log" (world_with odd_hex_log)
                (fst (extract_screenshot env_pil "shot.log"
                        (world_with odd_hex_log)))
                InvalidHex) as (Hmain & Hfs & _).
    + vm_compute. reflexivity.
    + split; [vm_compute; reflexivity|].
      unfold argv0. rewrite Hmain. split; [reflexivity|exact Hfs].
Defined.

(** C7.  The three tokens are looked up one by one.  With no [WIDTH:] token
    (the key followed by at least one digit) the width is 240; with no
    [HEIGHT:] token the height is 320; with no [FORMAT:] token the format
    is unset.  A token that is there gives its field the value of the
    leftmost one.  None of these six facts asks anything about the other
    two tokens. *)
Theorem C7_metadata_tokens (section : list ascii) :
  let m := metadata_of section in
  (token_absent (Py.lit "WIDTH:") Py.is_digit section -> width m = 240) /\
  (token_absent (Py.lit "HEIGHT:") Py.is_digit section -> height m = 320) /\
  (token_absent (Py.lit "FORMAT:") Py.is_word section ->
   img_format m = None) /\
  (forall g,
     (exists i, first_token (Py.lit "WIDTH:") Py.is_digit section i g) ->
     width m = Py.int_of_digits g) /\
  (forall g,
     (exists i, first_token (Py.lit "HEIGHT:") Py.is_digit section i g) ->
     height m = Py.int_of_digits g) /\
  (forall g,
     (exists i, first_token (Py.lit "FORMAT:") Py.is_word section i g) ->
     img_format m = Some g).
Proof.
  cbv zeta. rewrite metadata_width, metadata_height, metadata_format.
  repeat split.
  - intros H. by rewrite (proj2 (re_search_None _ _ _) H).
  - intros H. by rewrite (proj2 (re_search_None _ _ _) H).
  - intros H. by rewrite (proj2 (re_search_None _ _ _) H).
  - intros g H. by rewrite (proj2 (re_search_Some _ _ _ _) H).
  - intros g H. by rewrite (proj2 (re_search_Some _ _ _ _) H).
  - intros g H. by rewrite (proj2 (re_search_Some _ _ _ _) H).
Qed.

(** A width that is not a number and a height that is one: the width is the
    default, the height is read, the format is read. *)
Lemma C7_metadata_tokens_witness :
  width (metadata_of (Py.lit "FORMAT:RGB565 WIDTH:abc HEIGHT:0128")) = 240 /\
  height (metadata_of (Py.lit "FORMAT:RGB565 WIDTH:abc HEIGHT:0128")) = 128 /\
  img_format (metadata_of (Py.lit "FORMAT:RGB565 WIDTH:abc HEIGHT:0128")) =
    Some (Py.lit "RGB565").
Proof.
  destruct (C7_metadata_tokens
              (Py.lit "FORMAT:RGB565 WIDTH:abc HEIGHT:0128"))
    as (Hw & _ & _ & _ & Hh & Hf).
  split; [|split].
  - apply Hw. apply re_search_None. vm_compute. reflexivity.
  - apply (Hh (Py.lit "0128")). apply re_search_Some. vm_compute. reflexivity.
  - apply (Hf (Py.lit "RGB565")). apply re_search_Some. vm_compute.
    reflexivity.
Defined.

(** C8, as the script has it.  The width and the height of the metadata are
    never negative. *)
Theorem C8_dimensions_not_negative (section : list ascii) :
  0 <= width (metadata_of section) /\ 0 <= height (metadata_of section).
Proof.
  rewrite metadata_width, metadata_height. split.
  - destruct (Py.re_search_group _ Py.is_digit section) as [g|] eqn:E;
      [|lia].
    apply int_of_digits_nonneg. by apply re_search_class in E.
  - destruct (Py.re_search_group (Py.lit "HEIGHT:") _ section) as [g|] eqn:E;
      [|lia].
    apply int_of_digits_nonneg. by apply re_search_class in E.
Qed.

(** The claim C8 fails on a section that announces a screen of 0 by 0. *)
Lemma C8_zero_dimensions_counterexample :
  width (metadata_of (Py.lit "FORMAT:RGB565 WIDTH:0 HEIGHT:0")) = 0 /\
  height (metadata_of (Py.lit "FORMAT:RGB565 WIDTH:0 HEIGHT:0")) = 0 /\
  ~ (0 < width (metadata_of (Py.lit "FORMAT:RGB565 WIDTH:0 HEIGHT:0")) /\
     0 < height (metadata_of (Py.lit "FORMAT:RGB565 WIDTH:0 HEIGHT:0"))).
Proof.
  split; [reflexivity|]. split; [reflexivity|].
  intros [H _]. vm_compute in H. discriminate.
Qed.

(** C9, as the script has it.  A hex text that is decoded has an even
    number of hex digits, and the bytes decoded are half as many; when the
    text has hex digits only, as in the script, that is half its length.
    The number of bytes itself can be odd. *)
Theorem C9_decoded_length (s : list ascii) (raw : list byte) :
  Py.fromhex s = inr raw ->
  hex_digit_count s = (2 * length raw)%nat /\
  Nat.even (hex_digit_count s) = true /\
  (forallb Py.is_hexdigit s = true -> length s = (2 * length raw)%nat).
Proof.
  intros H. apply fromhex_length in H. split; [exact H|]. split.
  - rewrite H. apply Nat.even_spec. by exists (length raw).
  - intros Hall. by rewrite <- (hex_digit_count_all _ Hall).
Qed.

Lemma C9_decoded_length_witness :
  Py.fromhex (Py.lit "F80007e0") = inr [xf8; x00; x07; xe0] /\
  length (Py.lit "F80007e0") = (2 * length [xf8; x00; x07; xe0])%nat.
Proof.
  split; [reflexivity|].
  apply (C9_decoded_length (Py.lit "F80007e0") [xf8; x00; x07; xe0]);
    reflexivity.
Defined.

(** The claim C9 fails on six hex digits: they are decoded to three bytes.
    In a run on such a capture the conversion is called on the three bytes
    and its loop raises. *)
Lemma C9_odd_byte_count_counterexample :
  Py.fromhex (Py.lit "F80007") = inr [xf8; x00; x07] /\
  Nat.even (length [xf8; x00; x07]) = false /\
  fs (fst (extract_screenshot env_pil "shot.log" (world_with odd_log)))
    !! "screenshot_20250101_120000.raw"%string = Some [xf8; x00; x07] /\
  convert_body env_pil "screenshot_20250101_120000.raw" 1 1
    (fst (extract_screenshot env_pil "shot.log" (world_with odd_log)))
    = inl Py.StructError.
Proof. vm_compute. repeat split. Qed.



(** With Pillow at hand and a payload of the announced size, the PNG file is
    written and the raw file is removed. *)
Example full_run :
  snd (main env_pil argv0 (world_with sample_log)) = 0 /\
  fs (fst (main env_pil argv0 (world_with sample_log)))
    !! "screenshot_20250101_120000.png"%string = Some (file_of "PNG") /\
  fs (fst (main env_pil argv0 (world_with sample_log)))
    !! "screenshot_20250101_120000.raw"%string = None.
Proof. vm_compute. repeat split. Qed.

(** A payload of two pixels for a screen announced as 1x1: the stand-in for
    Pillow refuses it, and the run still ends with status 0 and the raw file
    in place. *)
Example too_many_pixels_degrades :
  let log :=
    line "========== SCREENSHOT START ==========" +:+
    line "WIDTH:1 HEIGHT:1" +:+
    line "F80007e0" +:+
    line "========== SCREENSHOT END ==========" in
  snd (convert_to_png env_pil "screenshot_20250101_120000.raw" 1 1
         "20250101_120000"
         (fst (extract_screenshot env_pil "shot.log" (world_with log))))
    = None /\
  snd (main env_pil argv0 (world_with log)) = 0 /\
  fs (fst (main env_pil argv0 (world_with log)))
    !! "screenshot_20250101_120000.raw"%string = Some [xf8; x00; x07; xe0].
Proof. vm_compute. repeat split. Qed.

(** * Further properties of extract_screenshot.py *)

Lemma forallb_below (P : Z -> bool) (n : nat) :
  forallb P (map Z.of_nat (seq 0 n)) = true ->
  forall x, 0 <= x < Z.of_nat n -> P x = true.
Proof.
  intros H x Hx. rewrite forallb_forall in H. apply H.
  apply in_map_iff. exists (Z.to_nat x). split; [lia|].
  apply in_seq. lia.
Qed.

Lemma expand5_spec x :
  0 <= x < 32 -> 0 <= expand5 x <= 255 /\ expand5 x / 8 = x.
Proof.
  intros Hx.
  pose proof (forallb_below
    (fun x => (0 <=? expand5 x) && (expand5 x <=? 255) && (expand5 x / 8 =? x))
    32 eq_refl x Hx) as H.
  simpl in H. lia.
Qed.

Lemma expand6_spec x :
  0 <= x < 64 -> 0 <= expand6 x <= 255 /\ expand6 x / 4 = x.
Proof.
  intros Hx.
  pose proof (forallb_below
    (fun x => (0 <=? expand6 x) && (expand6 x <=? 255) && (expand6 x / 4 =? x))
    64 eq_refl x Hx) as H.
  simpl in H. lia.
Qed.

Lemma pixel_of_sample_channels val :
  pixel_of_sample val =
  (expand5 ((val / 2048) mod 32), expand6 ((val / 32) mod 64),
   expand5 (val mod 32)).
Proof.
  unfold pixel_of_sample, expand5, expand6.
  change 31 with (Z.ones 5). change 63 with (Z.ones 6).
  rewrite !Z.land_ones, !Z.shiftr_div_pow2 by lia. reflexivity.
Qed.

(** X1.  Whatever the value of the sample, each channel of its pixel is
    between 0 and 255. *)
Theorem X1_pixel_channels_in_range (val : Z) :
  let '(r8, g8, b8) := pixel_of_sample val in
  0 <= r8 <= 255 /\ 0 <= g8 <= 255 /\ 0 <= b8 <= 255.
Proof.
  rewrite pixel_of_sample_channels.
  pose proof (expand5_spec ((val / 2048) mod 32)).
  pose proof (expand6_spec ((val / 32) mod 64)).
  pose proof (expand5_spec (val mod 32)).
  pose proof (Z.mod_pos_bound (val / 2048) 32).
  pose proof (Z.mod_pos_bound (val / 32) 64).
  pose proof (Z.mod_pos_bound val 32). lia.
Qed.

(** The sample is recovered from its pixel. *)
Lemma sample_recovered_from_pixel (val : Z) :
  0 <= val < 65536 -> rgb565_of_pixel (pixel_of_sample val) = val.
Proof.
  intros Hval. rewrite pixel_of_sample_channels. unfold rgb565_of_pixel.
  pose proof (Z.mod_pos_bound (val / 2048) 32).
  pose proof (Z.mod_pos_bound (val / 32) 64).
  pose proof (Z.mod_pos_bound val 32).
  destruct (expand5_spec ((val / 2048) mod 32)) as [_ ->]; [lia|].
  destruct (expand6_spec ((val / 32) mod 64)) as [_ ->]; [lia|].
  destruct (expand5_spec (val mod 32)) as [_ ->]; [lia|].
  Z.div_mod_to_equations. lia.
Qed.

Lemma byte_of_val_byte_val b : byte_of_val (byte_val b) = b.
Proof.
  unfold byte_of_val, byte_val. rewrite N2Z.id, <- ascii_of_byte_via_N.
  apply byte_of_ascii_of_byte.
Qed.

Lemma byte_val_range b : 0 <= byte_val b < 256.
Proof. unfold byte_val. pose proof (Byte.to_N_bounded b). lia. Qed.

Lemma bytes_of_pixels_take (data : list byte) n :
  (2 * n <= length data)%nat ->
  bytes_of_pixels (map (fun j => pixel_of_sample (be_sample data j)) (seq 0 n))
  = firstn (2 * n) data.
Proof.
  induction n as [|n IH]; intros Hlen; [reflexivity|].
  rewrite seq_S, map_app. unfold bytes_of_pixels in *.
  rewrite flat_map_app, IH by lia. cbn [map flat_map Nat.add].
  destruct (lookup_lt_is_Some_2 data (2 * n)%nat) as [hi Hhi]; [lia|].
  destruct (lookup_lt_is_Some_2 data (2 * n + 1)%nat) as [lo Hlo]; [lia|].
  unfold be_sample. rewrite Hhi, Hlo.
  pose proof (byte_val_range hi). pose proof (byte_val_range lo).
  rewrite sample_recovered_from_pixel by lia.
  replace ((256 * byte_val hi + byte_val lo) / 256) with (byte_val hi)
    by (Z.div_mod_to_equations; lia).
  replace ((256 * byte_val hi + byte_val lo) mod 256) with (byte_val lo)
    by (Z.div_mod_to_equations; lia).
  rewrite !byte_of_val_byte_val, app_nil_r.
  replace (2 * S n)%nat with (S (S (2 * n))) by lia.
  rewrite (take_S_r data (S (2 * n)) lo) by (rewrite <- Hlo; f_equal; lia).
  rewrite (take_S_r data (2 * n) hi) by done.
  by rewrite <- app_assoc.
Qed.

Lemma length_parity (n : nat) :
  exists k, n = (2 * k)%nat \/ n = (2 * k + 1)%nat.
Proof.
  exists (Nat.div2 n). destruct (Nat.even n) eqn:E.
  - left. apply Nat.even_spec in E. destruct E as [m ->].
    by rewrite Nat.div2_double.
  - right. assert (Nat.odd n = true) as O by (by rewrite <- Nat.negb_even, E).
    apply Nat.odd_spec in O. destruct O as [m ->].
    replace (2 * m + 1)%nat with (S (2 * m)) by lia.
    rewrite Nat.div2_succ_double. lia.
Qed.

(** X2.  The conversion loses nothing: when a byte sequence is converted to
    pixels, the top 5, 6 and 5 bits of the channels of the pixels give the
    byte sequence back.  Two byte sequences with the same pixels are
    equal. *)
Theorem X2_conversion_is_lossless (data : list byte) (pixels : list Pixel) :
  rgb565_to_rgb888 data = inr pixels -> bytes_of_pixels pixels = data.
Proof.
  intros H. destruct (length_parity (length data)) as [n [Hn|Hn]].
  - rewrite (rgb565_even _ _ Hn) in H. injection H as <-.
    rewrite bytes_of_pixels_take by lia. apply take_ge. lia.
  - rewrite (rgb565_odd _ _ Hn) in H. discriminate.
Qed.

Lemma hexdigit_not_space c : Py.is_hexdigit c = true -> Py.is_space c = false.
Proof.
  intros H. destruct (Py.is_space c) eqn:E; [|reflexivity].
  apply space_not_hexdigit in E. congruence.
Qed.

Lemma fromhex_hex_only_aux n : forall s,
  (length s <= n)%nat -> forallb Py.is_hexdigit s = true ->
  if Nat.even (length s) then exists raw, Py.fromhex s = inr raw
  else Py.fromhex s = inl Py.ValueError.
Proof.
  induction n as [|n IH]; intros s Hlen Hall.
  - destruct s; [|simpl in Hlen; lia]. simpl. eauto.
  - destruct s as [|c [|d s]]; [simpl; eauto| |].
    + simpl in *. apply andb_true_iff in Hall as [Hc _].
      rewrite (hexdigit_not_space _ Hc).
      rewrite hex_value_is_hexdigit in Hc.
      by destruct (Py.hex_value c).
    + simpl in Hlen. simpl in Hall.
      apply andb_true_iff in Hall as [Hc Hall].
      apply andb_true_iff in Hall as [Hd Hall].
      specialize (IH s ltac:(lia) Hall).
      change (Nat.even (length (c :: d :: s))) with (Nat.even (length s)).
      simpl Py.fromhex. rewrite (hexdigit_not_space _ Hc).
      rewrite hex_value_is_hexdigit in Hc, Hd.
      destruct (Py.hex_value c) as [top|]; [|done].
      destruct (Py.hex_value d) as [bot|]; [|done].
      destruct (Nat.even (length s)).
      * destruct IH as [raw ->]. eauto.
      * by rewrite IH.
Qed.

(** A text of hex digits only is decoded when their number is even, and
    refused when it is odd. *)
Lemma fromhex_hex_only s :
  forallb Py.is_hexdigit s = true ->
  if Nat.even (length s) then exists raw, Py.fromhex s = inr raw
  else Py.fromhex s = inl Py.ValueError.
Proof. by apply (fromhex_hex_only_aux (length s)). Qed.

Lemma extract_unfold env log_file w data section :
  fs w !! log_file = Some data ->
  locate_section (Py.read_text data) = inr section ->
  snd (extract_screenshot env log_file w) =
  match collect_hex section with
  | inl why => ReturnNone why
  | inr hex_data =>
    match Py.fromhex hex_data with
    | inl _ => ReturnNone InvalidHex
    | inr _ => ReturnTuple (raw_name (now env)) (width (metadata_of section))
                 (height (metadata_of section)) (now env)
    end
  end /\
  fs (fst (extract_screenshot env log_file w)) =
  match collect_hex section with
  | inl why => fs w
  | inr hex_data =>
    match Py.fromhex hex_data with
    | inl _ => fs w
    | inr raw_data => <[raw_name (now env) := raw_data]> (fs w)
    end
  end.
Proof.
  intros Hlog Hloc. unfold extract_screenshot, metadata_of. simpl fs.
  rewrite Hlog, Hloc.
  destruct (extract_metadata section) as [out meta].
  destruct (collect_hex section) as [why|hex_data]; [by split|].
  by destruct (Py.fromhex hex_data).
Qed.

(** X3.  Once the section is located, the outcome of the extraction is
    decided by the hex-only lines of the section.  With none of them it is
    [NoPayload]; with an odd number of hex digits on them it is
    [InvalidHex]; in both cases no file is written.  With an even number
    the tuple is returned, and the raw file, the only file written, holds
    half as many bytes as there are hex digits. *)
Theorem X3_extraction_outcome env log_file w data section :
  fs w !! log_file = Some data ->
  locate_section (Py.read_text data) = inr section ->
  let hex_lines := List.filter hex_only (split_lines section) in
  let outcome := snd (extract_screenshot env log_file w) in
  let files := fs (fst (extract_screenshot env log_file w)) in
  (hex_lines = [] -> outcome = ReturnNone NoPayload /\ files = fs w) /\
  (hex_lines <> [] -> Nat.odd (length (concat hex_lines)) = true ->
   outcome = ReturnNone InvalidHex /\ files = fs w) /\
  (hex_lines <> [] -> Nat.even (length (concat hex_lines)) = true ->
   outcome = ReturnTuple (raw_name (now env)) (width (metadata_of section))
               (height (metadata_of section)) (now env) /\
   exists raw_data,
     files = <[raw_name (now env) := raw_data]> (fs w) /\
     length (concat hex_lines) = (2 * length raw_data)%nat).
Proof.
  intros Hlog Hloc. cbv zeta.
  destruct (extract_unfold env _ _ _ _ Hlog Hloc) as [-> ->].
  unfold collect_hex. rewrite findall_hex_lines_filter.
  split; [by intros ->|].
  destruct (List.filter hex_only (split_lines section)) as [|l ls] eqn:E;
    [by split|].
  assert (forallb Py.is_hexdigit (concat (l :: ls)) = true) as Hall.
  { apply (collect_hex_inr section). unfold collect_hex.
    by rewrite findall_hex_lines_filter, E. }
  pose proof (fromhex_hex_only _ Hall) as Hdec.
  split; intros _ Hpar.
  - rewrite <- Nat.negb_even in Hpar. apply negb_true_iff in Hpar.
    rewrite Hpar in Hdec. by rewrite Hdec.
  - rewrite Hpar in Hdec. destruct Hdec as [raw Hraw]. rewrite Hraw.
    split; [done|]. exists raw. split; [done|].
    apply fromhex_length in Hraw. by rewrite <- (hex_digit_count_all _ Hall).
Qed.

Lemma extract_frame env log_file w p :
  p <> raw_name (now env) ->
  fs (fst (extract_screenshot env log_file w)) !! p = fs w !! p.
Proof.
  intros Hp. unfold extract_screenshot. simpl fs.
  destruct (fs w !! log_file) as [data|]; [|reflexivity].
  destruct (locate_section (Py.read_text data)) as [why|section];
    [reflexivity|].
  destruct (extract_metadata section) as [out meta].
  destruct (collect_hex section) as [why|hex_data]; [reflexivity|].
  destruct (Py.fromhex hex_data) as [e|raw_data]; [reflexivity|].
  simpl. by rewrite lookup_insert_ne.
Qed.

Lemma convert_frame env raw_file wd ht timestamp w p :
  p <> png_name timestamp ->
  fs (fst (convert_to_png env raw_file wd ht timestamp w)) !! p = fs w !! p.
Proof.
  intros Hp. unfold convert_to_png.
  destruct (convert_body env raw_file wd ht _) as [[| | | |msg]|png];
    try reflexivity.
  simpl. by rewrite lookup_insert_ne.
Qed.

Lemma extract_tuple_names env log_file w w1 raw_file wd ht timestamp :
  extract_screenshot env log_file w = (w1, ReturnTuple raw_file wd ht timestamp) ->
  raw_file = raw_name (now env) /\ timestamp = now env.
Proof.
  intros H. apply extract_tuple_inv in H
    as (data & section & hex_data & raw_data
        & _ & _ & _ & _ & _ & _ & Hts & Hraw & _).
  by split.
Qed.

Lemma clean_up_frame env raw_file w p :
  p <> raw_file -> fs (clean_up env raw_file w) !! p = fs w !! p.
Proof.
  intros Hp. unfold clean_up, try_unlink.
  destruct (fs w !! raw_file); [|reflexivity].
  destruct (rm env raw_file); [reflexivity|].
  simpl. by rewrite lookup_delete_ne.
Qed.

(** X4.  Whatever the arguments and the files, a run of [main] leaves every
    file other than the raw file and the PNG file of its time stamp as it
    was: not created, not changed, not removed. *)
Theorem X4_main_touches_two_files env argv w p :
  p <> raw_name (now env) -> p <> png_name (now env) ->
  fs (fst (main env argv w)) !! p = fs w !! p.
Proof.
  intros Hraw Hpng. unfold main.
  destruct argv as [|prog [|log_file [|more argv]]]; try reflexivity.
  destruct (fs w !! log_file) as [data|] eqn:Hlog; [|reflexivity].
  pose proof (extract_frame env log_file w p Hraw) as Hex.
  destruct (extract_screenshot env log_file w) as [w1 [e|why|raw_file wd ht ts]]
    eqn:Hrun; simpl in Hex; try exact Hex.
  destruct (extract_tuple_names _ _ _ _ _ _ _ _ Hrun) as [-> ->].
  pose proof (convert_frame env (raw_name (now env)) wd ht (now env) w1 p Hpng)
    as Hconv.
  destruct (convert_to_png env _ wd ht (now env) w1) as [w2 [png_file|]];
    simpl in Hconv; simpl.
  - rewrite (clean_up_frame env _ w2 p Hraw). congruence.
  - congruence.
Qed.

Lemma raw_name_not_png_name ts1 ts2 : raw_name ts1 <> png_name ts2.
Proof.
  unfold raw_name, png_name. intros H.
  apply (inj (String.app "screenshot_")) in H.
  revert ts2 H. induction ts1 as [|c ts1 IH]; intros [|d ts2] H;
    simpl in H; try discriminate.
  - destruct ts2 as [|? [|? [|? [|? ?]]]]; simpl in H; discriminate.
  - destruct ts1 as [|? [|? [|? [|? ?]]]]; simpl in H; discriminate.
  - injection H as _ H. by apply IH in H.
Qed.

(** X5.  When the extraction returns its tuple and the conversion produces
    the bytes of the PNG file, [main] ends with status 0 and the PNG file
    holds these bytes.  When the system lets the raw file go, it is removed
    and the lines of the conversion and of the clean-up are printed; when
    removing it raises an exception, the raw file stays as it is and a
    warning with that exception is printed in place of the line of the
    clean-up. *)
Theorem X5_main_success env prog log_file w w1 raw_file wd ht timestamp png :
  extract_screenshot env log_file w =
    (w1, ReturnTuple raw_file wd ht timestamp) ->
  convert_body env raw_file wd ht w1 = inr png ->
  exists w2,
    main env [prog; log_file] w = (w2, 0) /\
    fs w2 !! png_name timestamp = Some png /\
    match rm env raw_file with
    | None =>
      fs w2 = delete raw_file (<[png_name timestamp := png]> (fs w1)) /\
      fs w2 !! raw_file = None /\
      stdout w2 = stdout w1 ++
        [Print (nl +:+ "Converting to PNG: " +:+ png_name timestamp);
         Print ("Successfully created: " +:+ png_name timestamp);
         Print ("Cleaned up raw file: " +:+ raw_file);
         Print (nl +:+ "✓ Screenshot saved as: " +:+ png_name timestamp)]
    | Some e =>
      fs w2 = <[png_name timestamp := png]> (fs w1) /\
      fs w2 !! raw_file = fs w1 !! raw_file /\
      stdout w2 = stdout w1 ++
        [Print (nl +:+ "Converting to PNG: " +:+ png_name timestamp);
         Print ("Successfully created: " +:+ png_name timestamp);
         PrintExn "Warning: Could not delete raw file: " e;
         Print (nl +:+ "✓ Screenshot saved as: " +:+ png_name timestamp)]
    end.
Proof.
  intros Hex Hbody. unfold main.
  destruct (extract_reads_log _ _ _ _ _ _ _ _ Hex) as [data ->].
  rewrite Hex. unfold convert_to_png.
  change (convert_body env raw_file wd ht (echo _ w1))
    with (convert_body env raw_file wd ht w1).
  rewrite Hbody. eexists. split; [reflexivity|].
  destruct (extract_tuple_raw _ _ _ _ _ _ _ _ Hex) as (raw_data & Hraw & _).
  destruct (extract_tuple_names _ _ _ _ _ _ _ _ Hex) as [-> ->].
  assert (<[png_name (now env) := png]> (fs w1) !! raw_name (now env) =
          Some raw_data) as Hkept.
  { rewrite lookup_insert_ne; [exact Hraw|].
    intros H. by apply (raw_name_not_png_name (now env) (now env)). }
  unfold clean_up, try_unlink. cbn [fs echo write_file]. rewrite Hkept.
  destruct (rm env (raw_name (now env))) as [e|]; cbn.
  - split; [apply lookup_insert_eq|]. split; [reflexivity|].
    split; [by rewrite Hkept|]. by rewrite <- !app_assoc.
  - split.
    + rewrite lookup_delete_ne by apply raw_name_not_png_name.
      apply lookup_insert_eq.
    + split; [reflexivity|]. split; [apply lookup_delete_eq|].
      by rewrite <- !app_assoc.
Qed.

(** X6.  The exit status of [main] is 0 or 1.  It is 0 exactly when there
    are two arguments and the extraction returns its tuple: the conversion
    to PNG, done or failed, does not change the status. *)
Theorem X6_main_status env argv w :
  (snd (main env argv w) = 0 \/ snd (main env argv w) = 1) /\
  (snd (main env argv w) = 0 <->
   exists prog log_file raw_file wd ht timestamp,
     argv = [prog; log_file] /\
     snd (extract_screenshot env log_file w) =
       ReturnTuple raw_file wd ht timestamp).
Proof.
  unfold main.
  destruct argv as [|prog [|log_file [|more argv]]];
    try (split; [by right|]; split; [done|];
         by intros (? & ? & ? & ? & ? & ? & ? & _)).
  destruct (fs w !! log_file) as [data|] eqn:Hlog.
  - destruct (extract_screenshot env log_file w)
      as [w1 [e|why|raw_file wd ht ts]] eqn:Hrun.
    + split; [by right|]. split; [done|].
      intros (? & ? & ? & ? & ? & ? & [= <- <-] & H).
      rewrite Hrun in H. discriminate.
    + split; [by right|]. split; [done|].
      intros (? & ? & ? & ? & ? & ? & [= <- <-] & H).
      rewrite Hrun in H. discriminate.
    + destruct (convert_to_png env raw_file wd ht ts w1) as [w2 [png_file|]];
        cbn [snd]; (split; [by left|]; split; [|done]; intros _;
                    exists prog, log_file, raw_file, wd, ht, ts;
                    by rewrite Hrun).
  - split; [by right|]. split; [done|].
    intros (? & lf & ? & ? & ? & ? & [= <- <-] & H).
    unfold extract_screenshot in H. simpl in H. rewrite Hlog in H.
    discriminate.
Qed.

Lemma read_text_crlf data :
  Forall (fun b => b <> x0d) data ->
  Py.read_text (crlf data) = Py.read_text data.
Proof.
  unfold Py.read_text. induction 1 as [|b data Hb _ IH]; [reflexivity|].
  simpl. destruct (Byte.eqb b x0a) eqn:Hlf.
  - apply Byte.byte_dec_bl in Hlf as ->. simpl. by rewrite IH.
  - simpl. assert (Ascii.eqb (ascii_of_byte b) Py.CR = false) as ->.
    { apply Ascii.eqb_neq. intros H. apply Hb.
      rewrite <- (byte_of_ascii_of_byte b), H. reflexivity. }
    by rewrite IH.
Qed.

Lemma extract_same_text env log_file w w' data data' :
  fs w !! log_file = Some data -> fs w' !! log_file = Some data' ->
  Py.read_text data = Py.read_text data' -> stdout w = stdout w' ->
  snd (extract_screenshot env log_file w) =
    snd (extract_screenshot env log_file w') /\
  stdout (fst (extract_screenshot env log_file w)) =
    stdout (fst (extract_screenshot env log_file w')) /\
  (forall raw_file wd ht ts,
     snd (extract_screenshot env log_file w) = ReturnTuple raw_file wd ht ts ->
     fs (fst (extract_screenshot env log_file w)) !! raw_file =
     fs (fst (extract_screenshot env log_file w')) !! raw_file).
Proof.
  intros Hd Hd' Htext Hout. unfold extract_screenshot. simpl fs.
  rewrite Hd, Hd', <- Htext.
  destruct (locate_section (Py.read_text data)) as [why|section].
  { simpl. by rewrite Hout. }
  destruct (extract_metadata section) as [out meta].
  destruct (collect_hex section) as [why|hex_data].
  { simpl. by rewrite Hout. }
  destruct (Py.fromhex hex_data) as [e|raw_data].
  { simpl. by rewrite Hout. }
  simpl. rewrite Hout. split; [done|]. split; [done|].
  intros raw_file wd ht ts [= <- _ _ _]. by rewrite !lookup_insert_eq.
Qed.

Lemma convert_same env raw_file wd ht ts w w' :
  fs w !! raw_file = fs w' !! raw_file -> stdout w = stdout w' ->
  snd (convert_to_png env raw_file wd ht ts w) =
    snd (convert_to_png env raw_file wd ht ts w') /\
  stdout (fst (convert_to_png env raw_file wd ht ts w)) =
    stdout (fst (convert_to_png env raw_file wd ht ts w')) /\
  fs (fst (convert_to_png env raw_file wd ht ts w)) !! raw_file =
    fs (fst (convert_to_png env raw_file wd ht ts w')) !! raw_file.
Proof.
  intros Hraw Hout. unfold convert_to_png.
  assert (convert_body env raw_file wd ht
            (echo [Print (nl +:+ "Converting to PNG: " +:+ png_name ts)] w) =
          convert_body env raw_file wd ht
            (echo [Print (nl +:+ "Converting to PNG: " +:+ png_name ts)] w'))
    as ->.
  { unfold convert_body. simpl fs. by rewrite Hraw. }
  destruct (convert_body env raw_file wd ht _) as [[| | | |msg]|png];
    simpl; rewrite Hout; try done.
  split; [done|]. split; [done|].
  rewrite !lookup_insert. by case_decide.
Qed.

Lemma clean_up_same env raw_file w w' :
  fs w !! raw_file = fs w' !! raw_file -> stdout w = stdout w' ->
  stdout (clean_up env raw_file w) = stdout (clean_up env raw_file w').
Proof.
  intros Hraw Hout. unfold clean_up, try_unlink. rewrite Hraw.
  destruct (fs w' !! raw_file); [|simpl; by rewrite Hout].
  destruct (rm env raw_file); simpl; by rewrite Hout.
Qed.

(** X7.  A log saved with carriage return, line feed at the end of its lines
    gives the same run as the log with line feeds only: the same exit
    status and the same lines printed. *)
Theorem X7_crlf_log_same_run env prog log_file files out data :
  Forall (fun b => b <> x0d) data ->
  let w_lf := mkWorld (<[log_file := data]> files) out in
  let w_crlf := mkWorld (<[log_file := crlf data]> files) out in
  snd (main env [prog; log_file] w_crlf) = snd (main env [prog; log_file] w_lf) /\
  stdout (fst (main env [prog; log_file] w_crlf)) =
    stdout (fst (main env [prog; log_file] w_lf)).
Proof.
  intros Hcr. cbv zeta.
  set (w_lf := mkWorld (<[log_file := data]> files) out).
  set (w_crlf := mkWorld (<[log_file := crlf data]> files) out).
  assert (fs w_lf !! log_file = Some data) as Hlf by apply lookup_insert_eq.
  assert (fs w_crlf !! log_file = Some (crlf data)) as Hcrlf
    by apply lookup_insert_eq.
  destruct (extract_same_text env log_file w_crlf w_lf _ _ Hcrlf Hlf
              (read_text_crlf _ Hcr) eq_refl) as (Hres & Hso & Hraw).
  unfold main. rewrite Hlf, Hcrlf.
  destruct (extract_screenshot env log_file w_crlf) as [w1 r1].
  destruct (extract_screenshot env log_file w_lf) as [w2 r2].
  simpl in Hres, Hso, Hraw. subst r2.
  destruct r1 as [e|why|raw_file wd ht ts]; try done.
  destruct (convert_same env raw_file wd ht ts w1 w2
              (Hraw _ _ _ _ eq_refl) Hso) as (Hc & Hco & Hcf).
  destruct (convert_to_png env raw_file wd ht ts w1) as [w1' o1].
  destruct (convert_to_png env raw_file wd ht ts w2) as [w2' o2].
  simpl in Hc, Hco, Hcf. subst o2.
  destruct o1; simpl; [|by rewrite Hco].
  split; [done|]. by rewrite (clean_up_same env raw_file w1' w2' Hcf Hco).
Qed.

Lemma X2_conversion_is_lossless_witness :
  rgb565_to_rgb888 [xf8; x00; x07; xe0] = inr [(255, 0, 0); (0, 255, 0)] /\
  bytes_of_pixels [(255, 0, 0); (0, 255, 0)] = [xf8; x00; x07; xe0].
Proof.
  split; [reflexivity|].
  apply (X2_conversion_is_lossless [xf8; x00; x07; xe0]). reflexivity.
Defined.

Lemma X3_extraction_outcome_witness :
  snd (extract_screenshot env_pil "shot.log" (world_with sample_log)) =
    ReturnTuple "screenshot_20250101_120000.raw" 2 1 "20250101_120000" /\
  snd (extract_screenshot env_pil "shot.log" (world_with odd_hex_log)) =
    ReturnNone InvalidHex /\
  snd (extract_screenshot env_pil "shot.log" (world_with empty_log)) =
    ReturnNone NoPayload.
Proof.
  split; [|split].
  - destruct (X3_extraction_outcome env_pil "shot.log"
                (world_with sample_log) (file_of sample_log)
                (Py.slice (Py.read_text (file_of sample_log)) 8 101))
      as (_ & _ & Heven).
    + reflexivity.
    + vm_compute. reflexivity.
    + destruct Heven as [Hout _].
      * vm_compute. discriminate.
      * vm_compute. reflexivity.
      * exact Hout.
  - destruct (X3_extraction_outcome env_pil "shot.log"
                (world_with odd_hex_log) (file_of odd_hex_log)
                (Py.slice (Py.read_text (file_of odd_hex_log)) 0 43))
      as (_ & Hodd & _).
    + reflexivity.
    + vm_compute. reflexivity.
    + destruct Hodd as [Hout _].
      * vm_compute. discriminate.
      * vm_compute. reflexivity.
      * exact Hout.
  - destruct (X3_extraction_outcome env_pil "shot.log"
                (world_with empty_log) (file_of empty_log)
                (Py.slice (Py.read_text (file_of empty_log)) 0 47))
      as (Hnone & _ & _).
    + reflexivity.
    + vm_compute. reflexivity.
    + destruct Hnone as [Hout _].
      * vm_compute. reflexivity.
      * exact Hout.
Defined.

Lemma X4_main_touches_two_files_witness :
  fs (fst (main env_pil argv0 (world_with sample_log))) !! "shot.log"%string =
  Some (file_of sample_log).
Proof.
  rewrite (X4_main_touches_two_files env_pil argv0 (world_with sample_log)
             "shot.log").
  - reflexivity.
  - vm_compute. discriminate.
  - vm_compute. discriminate.
Defined.

Lemma X5_main_success_witness :
  (exists w2,
     main env_pil argv0 (world_with sample_log) = (w2, 0) /\
     fs w2 !! "screenshot_20250101_120000.png"%string = Some (file_of "PNG") /\
     fs w2 !! "screenshot_20250101_120000.raw"%string = None) /\
  (exists w2,
     main env_locked argv0 (world_with sample_log) = (w2, 0) /\
     fs w2 !! "screenshot_20250101_120000.png"%string = Some (file_of "PNG") /\
     fs w2 !! "screenshot_20250101_120000.raw"%string =
       Some [xf8; x00; x07; xe0]).
Proof.
  split.
  - destruct (X5_main_success env_pil "extract_screenshot.py" "shot.log"
                (world_with sample_log)
                (fst (extract_screenshot env_pil "shot.log"
                        (world_with sample_log)))
                "screenshot_20250101_120000.raw" 2 1 "20250101_120000"
                (file_of "PNG"))
      as (w2 & Hmain & Hpng & _ & Hraw & _).
    + vm_compute. reflexivity.
    + vm_compute. reflexivity.
    + exists w2. split; [exact Hmain|]. split; [exact Hpng|exact Hraw].
  - destruct (X5_main_success env_locked "extract_screenshot.py" "shot.log"
                (world_with sample_log)
                (fst (extract_screenshot env_locked "shot.log"
                        (world_with sample_log)))
                "screenshot_20250101_120000.raw" 2 1 "20250101_120000"
                (file_of "PNG"))
      as (w2 & Hmain & Hpng & _ & Hraw & _).
    + vm_compute. reflexivity.
    + vm_compute. reflexivity.
    + exists w2. split; [exact Hmain|]. split; [exact Hpng|].
      rewrite Hraw. vm_compute. reflexivity.
Defined.

Lemma X7_crlf_log_same_run_witness :
  snd (main env_pil ["x"; "shot.log"]%string
         (mkWorld (<["shot.log"%string := crlf (file_of odd_log)]> ∅) [])) =
  snd (main env_pil ["x"; "shot.log"]%string
         (mkWorld (<["shot.log"%string := file_of odd_log]> ∅) [])).
Proof.
  apply (X7_crlf_log_same_run env_pil "x" "shot.log" ∅ [] (file_of odd_log)).
  vm_compute. repeat (constructor; [intros H; discriminate H|]). constructor.
Defined.

(** * The look-up scripts *)

(** ** The stable sort *)

Section Sorting.
Context {A : Type}.
Variable le : A -> A -> bool.
Hypothesis le_total : forall a b, le a b = false -> le b a = true.
Hypothesis le_trans : forall a b c, le a b = true -> le b c = true -> le a c = true.

Lemma insert_by_perm x l : Permutation (Py.insert_by le x l) (x :: l).
Proof.
  induction l as [|y l IH]; simpl; [done|].
  destruct (le x y); [done|]. rewrite IH. apply perm_swap.
Qed.

Lemma sort_by_perm l : Permutation (Py.sort_by le l) l.
Proof.
  induction l as [|x l IH]; simpl; [done|].
  by rewrite insert_by_perm, IH.
Qed.

Lemma sort_by_length l : length (Py.sort_by le l) = length l.
Proof. apply Permutation_length, sort_by_perm. Qed.

Lemma insert_by_sorted x l :
  StronglySorted (fun a b => le a b = true) l ->
  StronglySorted (fun a b => le a b = true) (Py.insert_by le x l).
Proof using le_total le_trans.
  induction 1 as [|y l Hs IH Hy]; simpl; [by repeat constructor|].
  destruct (le x y) eqn:Hxy.
  - constructor; [by constructor|]. constructor; [done|].
    eapply Forall_impl; [exact Hy|]. intros z Hz. by eapply le_trans.
  - constructor; [done|].
    apply List.Forall_forall. intros z Hz.
    apply (Permutation_in _ (insert_by_perm x l)) in Hz as [<-|Hz].
    + by apply le_total.
    + rewrite List.Forall_forall in Hy. by apply Hy.
Qed.

Lemma sort_by_sorted l :
  StronglySorted (fun a b => le a b = true) (Py.sort_by le l).
Proof using le_total le_trans.
  induction l as [|x l IH]; simpl; [constructor|]. by apply insert_by_sorted.
Qed.

(** Stability: the elements whose key is the one of [a] are in the sorted
    list in the order they had. *)
Lemma insert_by_same_key a x l :
  List.filter (same_key le a) (Py.insert_by le x l) =
  List.filter (same_key le a) (x :: l).
Proof using le_trans.
  induction l as [|y l IH]; [reflexivity|]. simpl Py.insert_by.
  destruct (le x y) eqn:Hxy; [reflexivity|].
  rewrite filter_cons_if, IH, !filter_cons_if.
  destruct (same_key le a y) eqn:Hy; [|reflexivity].
  destruct (same_key le a x) eqn:Hx; [|reflexivity].
  exfalso. unfold same_key in *.
  apply andb_true_iff in Hx as [Hax Hxa], Hy as [Hay Hya].
  rewrite (le_trans _ _ _ Hxa Hay) in Hxy. discriminate.
Qed.

Lemma sort_by_stable a l :
  List.filter (same_key le a) (Py.sort_by le l) = List.filter (same_key le a) l.
Proof using le_trans.
  induction l as [|x l IH]; [reflexivity|]. simpl Py.sort_by.
  by rewrite insert_by_same_key, !filter_cons_if, IH.
Qed.

End Sorting.

(** ** find_coin_id.py *)

Lemma strongly_sorted_lookup {A} (R : A -> A -> Prop) (l : list A) i j a b :
  StronglySorted R l -> (i < j)%nat ->
  l !! i = Some a -> l !! j = Some b -> R a b.
Proof.
  intros Hs. revert i j. induction Hs as [|x l Hs IH Hx]; intros i j Hij Ha Hb.
  - done.
  - destruct j as [|j]; [lia|]. simpl in Hb. destruct i as [|i].
    + injection Ha as <-. rewrite List.Forall_forall in Hx. apply Hx.
      apply list_elem_of_In. by eapply list_elem_of_lookup_2.
    + simpl in Ha. apply (IH i j); [lia|done|done].
Qed.

Lemma coin_key_total a b :
  FindCoinId.key_le a b = false -> FindCoinId.key_le b a = true.
Proof.
  unfold FindCoinId.key_le.
  destruct (FindCoinId.inactive a), (FindCoinId.inactive b); simpl; try done;
    lia.
Qed.

Lemma coin_key_trans a b c :
  FindCoinId.key_le a b = true -> FindCoinId.key_le b c = true ->
  FindCoinId.key_le a c = true.
Proof.
  unfold FindCoinId.key_le.
  destruct (FindCoinId.inactive a), (FindCoinId.inactive b),
    (FindCoinId.inactive c); simpl; try done; lia.
Qed.

Lemma coin_key_le_spec a b :
  FindCoinId.key_le a b = true <->
  (FindCoinId.m_is_active a = 0 -> FindCoinId.m_is_active b = 0) /\
  ((FindCoinId.m_is_active a = 0 <-> FindCoinId.m_is_active b = 0) ->
   FindCoinId.m_rank a <= FindCoinId.m_rank b).
Proof.
  unfold FindCoinId.key_le, FindCoinId.inactive.
  destruct (Z.eqb_spec (FindCoinId.m_is_active a) 0),
    (Z.eqb_spec (FindCoinId.m_is_active b) 0); simpl;
    rewrite ?Z.leb_le; intuition (try lia; try done).
Qed.

Lemma coin_same_key_spec a m :
  same_key FindCoinId.key_le a m = true <->
  ((FindCoinId.m_is_active a = 0 <-> FindCoinId.m_is_active m = 0) /\
   FindCoinId.m_rank a = FindCoinId.m_rank m).
Proof.
  unfold same_key. rewrite andb_true_iff, !coin_key_le_spec.
  intuition (try lia).
Qed.

Lemma same_symbol_spec symbol coin :
  FindCoinId.same_symbol symbol coin = true <->
  Py.upper (FindCoinId.c_symbol coin) = Py.upper symbol.
Proof. unfold FindCoinId.same_symbol, Py.str_eqb. apply bool_decide_eq_true. Qed.

Lemma found_coins_In symbol (coins : list FindCoinId.Coin) m :
  In m (map FindCoinId.match_of
          (List.filter (FindCoinId.same_symbol symbol) coins)) <->
  exists coin,
    In coin coins /\
    Py.upper (FindCoinId.c_symbol coin) = Py.upper symbol /\
    m = FindCoinId.match_of coin.
Proof.
  rewrite in_map_iff. split.
  - intros (coin & <- & Hin). apply List.filter_In in Hin as [Hin Hsym].
    exists coin. by rewrite <- same_symbol_spec.
  - intros (coin & Hin & Hsym & ->). exists coin. split; [done|].
    apply List.filter_In. by rewrite same_symbol_spec.
Qed.

(** X8.  When the request is answered, [find_coin_by_symbol] prints nothing
    and returns the coins of the answer whose symbol is the one asked for,
    letter case apart, each once.  In the list returned an active coin
    never comes after an inactive one, and among coins that are both active
    or both inactive the ranks do not decrease.  Coins alike in activity
    and rank keep the order of the answer. *)
Theorem X8_find_coin_by_symbol_order symbol key (data : option (list FindCoinId.Coin)) :
  let found :=
    map FindCoinId.match_of
      (List.filter (FindCoinId.same_symbol symbol) (default [] data)) in
  let ms := snd (FindCoinId.find_coin_by_symbol symbol key (inr data)) in
  fst (FindCoinId.find_coin_by_symbol symbol key (inr data)) = [] /\
  Permutation ms found /\
  (forall m,
     In m ms <->
     exists coin,
       In coin (default [] data) /\
       Py.upper (FindCoinId.c_symbol coin) = Py.upper symbol /\
       m = FindCoinId.match_of coin) /\
  (forall i j a b,
     (i < j)%nat -> ms !! i = Some a -> ms !! j = Some b ->
     (FindCoinId.m_is_active a = 0 -> FindCoinId.m_is_active b = 0) /\
     ((FindCoinId.m_is_active a = 0 <-> FindCoinId.m_is_active b = 0) ->
      FindCoinId.m_rank a <= FindCoinId.m_rank b)) /\
  (forall active rank,
     let alike m :=
       Bool.eqb (FindCoinId.m_is_active m =? 0) (negb active)
       && (FindCoinId.m_rank m =? rank) in
     List.filter alike ms = List.filter alike found).
Proof.
  cbv zeta. simpl fst. simpl snd.
  set (found := map FindCoinId.match_of _).
  pose proof (sort_by_perm FindCoinId.key_le found) as Hperm.
  split; [reflexivity|]. split; [exact Hperm|]. split; [|split].
  - intros m. rewrite <- found_coins_In. fold found. split; intros Hm.
    + by apply (Permutation_in _ Hperm).
    + by apply (Permutation_in _ (Permutation_sym Hperm)).
  - intros i j a b Hij Ha Hb. apply coin_key_le_spec.
    apply (strongly_sorted_lookup _ _ i j a b
             (sort_by_sorted _ coin_key_total coin_key_trans found) Hij Ha Hb).
  - intros active rank.
    set (a := FindCoinId.mkMatch 0 [] [] [] (if active then 1 else 0) rank).
    assert (forall m,
              Bool.eqb (FindCoinId.m_is_active m =? 0) (negb active)
              && (FindCoinId.m_rank m =? rank)
              = same_key FindCoinId.key_le a m) as Hext.
    { intros m. apply eq_true_iff_eq.
      rewrite coin_same_key_spec, andb_true_iff, Bool.eqb_true_iff, Z.eqb_eq.
      subst a. simpl. destruct active; simpl;
        destruct (Z.eqb_spec (FindCoinId.m_is_active m) 0);
        intuition (try lia; try done). }
    rewrite (List.filter_ext _ _ Hext (Py.sort_by FindCoinId.key_le found)).
    rewrite (List.filter_ext _ _ Hext found).
    apply (sort_by_stable _ coin_key_trans a found).
Qed.

(** X9.  The first coin of the list returned, the one that [main] recommends
    and whose ID it keeps, is a coin of the answer with the symbol asked
    for.  It is active when any such coin is active, and no such coin of
    the same activity has a smaller rank. *)
Theorem X9_recommended_coin symbol key (data : option (list FindCoinId.Coin))
    best rest :
  snd (FindCoinId.find_coin_by_symbol symbol key (inr data)) = best :: rest ->
  (exists coin,
     In coin (default [] data) /\
     Py.upper (FindCoinId.c_symbol coin) = Py.upper symbol /\
     best = FindCoinId.match_of coin) /\
  (forall coin,
     In coin (default [] data) ->
     Py.upper (FindCoinId.c_symbol coin) = Py.upper symbol ->
     let m := FindCoinId.match_of coin in
     (FindCoinId.m_is_active m <> 0 -> FindCoinId.m_is_active best <> 0) /\
     ((FindCoinId.m_is_active best = 0 <-> FindCoinId.m_is_active m = 0) ->
      FindCoinId.m_rank best <= FindCoinId.m_rank m)).
Proof.
  simpl snd. set (found := map FindCoinId.match_of _). intros Hsort.
  pose proof (sort_by_perm FindCoinId.key_le found) as Hperm.
  pose proof (sort_by_sorted _ coin_key_total coin_key_trans found) as Hs.
  rewrite Hsort in Hperm, Hs. split.
  - apply (found_coins_In symbol). fold found.
    apply (Permutation_in _ Hperm). by left.
  - intros coin Hin Hsym. cbv zeta.
    assert (In (FindCoinId.match_of coin) (best :: rest)) as Hm.
    { apply (Permutation_in _ (Permutation_sym Hperm)).
      apply found_coins_In. eauto. }
    assert (FindCoinId.key_le best (FindCoinId.match_of coin) = true) as Hle.
    { destruct Hm as [<-|Hm].
      - destruct (FindCoinId.key_le best best) eqn:E; [done|].
        pose proof (coin_key_total _ _ E). congruence.
      - apply StronglySorted_inv in Hs as [_ Hall].
        rewrite List.Forall_forall in Hall. by apply Hall. }
    apply coin_key_le_spec in Hle as [H1 H2]. split; [|exact H2].
    intros Hact Hbest. apply Hact. by apply H1.
Qed.

Lemma symbols_loop_ids F (net : FindCoinId.Net F) key todo : forall k acc,
  snd (FindCoinId.symbols_loop F net key todo k acc) =
  acc ++ concat (imap (fun i symbol => first_id
                         (snd (FindCoinId.find_coin_by_symbol symbol key
                                 (FindCoinId.map_answer F net (k + i)))))
                      todo).
Proof.
  induction todo as [|symbol rest IH]; intros k acc.
  - simpl. by rewrite app_nil_r.
  - simpl FindCoinId.symbols_loop. rewrite imap_cons. simpl concat.
    rewrite Nat.add_0_r.
    destruct (FindCoinId.find_coin_by_symbol symbol key
                (FindCoinId.map_answer F net k)) as [out_find [|best ms]].
    + specialize (IH (S k) acc).
      destruct (FindCoinId.symbols_loop F net key rest (S k) acc)
        as [out_rest ids]. simpl in *. rewrite IH. f_equal. f_equal.
      apply imap_ext. intros i x _. simpl. by rewrite Nat.add_succ_r.
    + specialize (IH (S k) (acc ++ [FindCoinId.m_id best])).
      destruct (FindCoinId.symbols_loop F net key rest (S k) _)
        as [out_rest ids]. simpl in *. rewrite IH, <- app_assoc. f_equal.
      f_equal. f_equal. apply imap_ext. intros i x _. simpl.
      by rewrite Nat.add_succ_r.
Qed.

(** X10.  Without the top list, and with at least one symbol, [main] prints
    the blocks of the symbols and then, unless no symbol has a match, the
    combined IDs: one ID for each symbol that has a match, the one of its
    first match, in the order of the arguments.  A symbol whose request
    fails or finds nothing gives no ID and does not stop the others. *)
Theorem X10_combined_ids F gt_cent fmt_2f fmt_6f help_text args
    (net : FindCoinId.Net F) :
  (FindCoinId.list_top args = None \/ FindCoinId.list_top args = Some 0) ->
  FindCoinId.symbols args <> [] ->
  let ids :=
    concat (imap (fun k symbol =>
                    first_id
                      (snd (FindCoinId.find_coin_by_symbol symbol
                              (FindCoinId.api_key args)
                              (FindCoinId.map_answer F net k))))
                 (FindCoinId.symbols args)) in
  FindCoinId.main F gt_cent fmt_2f fmt_6f help_text args net =
  fst (FindCoinId.symbols_loop F net (FindCoinId.api_key args)
         (FindCoinId.symbols args) 0 []) ++
  match ids with
  | [] => []
  | _ =>
    [FindCoinId.say
       (Py.LF :: Py.lit "ðŸ”— Combined IDs for web configuration:");
     FindCoinId.say
       (Py.lit "Coin IDs: " ++ Py.join (Py.lit ",") (map Py.str_int ids))]
  end.
Proof.
  intros Htop Hsym. cbv zeta.
  assert (FindCoinId.main F gt_cent fmt_2f fmt_6f help_text args net =
          FindCoinId.main_symbols F help_text args net) as ->.
  { unfold FindCoinId.main. by destruct Htop as [-> | ->]. }
  unfold FindCoinId.main_symbols.
  pose proof (symbols_loop_ids F net (FindCoinId.api_key args)
                (FindCoinId.symbols args) 0 []) as Hids.
  destruct (FindCoinId.symbols args) as [|s0 rest] eqn:Es; [done|].
  rewrite <- Es in *.
  destruct (FindCoinId.symbols_loop F net _ _ 0 []) as [out all_ids].
  simpl in Hids. simpl fst. by rewrite Hids.
Qed.

Lemma X9_recommended_coin_witness :
  exists coin,
    In coin sample_coins /\
    Py.upper (FindCoinId.c_symbol coin) = Py.upper (Py.lit "eth") /\
    FindCoinId.match_of coin =
      FindCoinId.mkMatch 1027 (Py.lit "Ethereum") (Py.lit "ETH")
        (Py.lit "ethereum") 1 2.
Proof.
  destruct (X9_recommended_coin (Py.lit "eth") (Py.lit "KEY")
              (Some sample_coins)
              (FindCoinId.mkMatch 1027 (Py.lit "Ethereum") (Py.lit "ETH")
                 (Py.lit "ethereum") 1 2)
              [FindCoinId.mkMatch 5 (Py.lit "EthX") (Py.lit "Eth")
                 (Py.lit "ethx") 1 999999;
               FindCoinId.mkMatch 99 (Py.lit "Ethereum Old") (Py.lit "eth")
                 (Py.lit "eth-old") 0 1])
    as [(coin & Hin & Hsym & Hbest) _].
  - vm_compute. reflexivity.
  - exists coin. split; [exact Hin|]. split; [exact Hsym|].
    symmetry. exact Hbest.
Defined.

Lemma X10_combined_ids_witness :
  List.last
    (FindCoinId.main unit (fun _ => true) (fun _ => []) (fun _ => []) "help"
       sample_args sample_net)
    (Print "") =
  FindCoinId.say (Py.lit "Coin IDs: 1027,1").
Proof.
  rewrite (X10_combined_ids unit (fun _ => true) (fun _ => []) (fun _ => [])
             "help" sample_args sample_net).
  - vm_compute. reflexivity.
  - left. reflexivity.
  - vm_compute. discriminate.
Defined.

(** ** find_binance_symbols.py *)

Lemma str_eqb_eq (a b : list ascii) : Py.str_eqb a b = true <-> a = b.
Proof. unfold Py.str_eqb. apply bool_decide_eq_true. Qed.

Lemma classify_spec symbol_upper pair m :
  In m (Binance.classify symbol_upper pair) <->
  Binance.p_status pair = Py.lit "TRADING" /\
  Binance.f_symbol m = Binance.p_symbol pair /\
  Binance.f_base m = Binance.p_baseAsset pair /\
  Binance.f_quote m = Binance.p_quoteAsset pair /\
  match Binance.f_type m with
  | Binance.exact => Binance.p_symbol pair = symbol_upper
  | Binance.usdt_pair =>
    Binance.p_symbol pair <> symbol_upper /\
    Binance.p_baseAsset pair = symbol_upper /\
    Binance.p_quoteAsset pair = Py.lit "USDT"
  | Binance.other_pair =>
    Binance.p_symbol pair <> symbol_upper /\
    Binance.p_baseAsset pair = symbol_upper /\
    Binance.p_quoteAsset pair <> Py.lit "USDT"
  end.
Proof.
  unfold Binance.classify.
  pose proof (str_eqb_eq (Binance.p_status pair) (Py.lit "TRADING")) as Hst.
  pose proof (str_eqb_eq (Binance.p_symbol pair) symbol_upper) as Hsym.
  pose proof (str_eqb_eq (Binance.p_baseAsset pair) symbol_upper) as Hbase.
  pose proof (str_eqb_eq (Binance.p_quoteAsset pair) (Py.lit "USDT")) as Hq.
  destruct (Py.str_eqb (Binance.p_status pair) (Py.lit "TRADING"));
    cbn [negb].
  2:{ split; [done|]. intros [H _]. apply Hst in H. discriminate. }
  destruct (Py.str_eqb (Binance.p_symbol pair) symbol_upper).
  { split.
    - intros [<-|[]]. cbn. intuition.
    - intros (_ & H1 & H2 & H3 & H4). left. destruct m as [s b q t].
      cbn in *. subst. destruct t; [done| |]; destruct H4 as [H4 _];
        exfalso; apply H4; intuition. }
  destruct (Py.str_eqb (Binance.p_baseAsset pair) symbol_upper); cbn [andb].
  2:{ split; [done|]. intros (_ & _ & _ & _ & H4).
      destruct (Binance.f_type m).
      - apply Hsym in H4. discriminate.
      - destruct H4 as (_ & H4 & _). apply Hbase in H4. discriminate.
      - destruct H4 as (_ & H4 & _). apply Hbase in H4. discriminate. }
  destruct (Py.str_eqb (Binance.p_quoteAsset pair) (Py.lit "USDT")).
  - split.
    + intros [<-|[]]. cbn. repeat split; intuition; discriminate.
    + intros (_ & H1 & H2 & H3 & H4). left. destruct m as [s b q t].
      cbn in *. subst. destruct t.
      * apply Hsym in H4. discriminate.
      * reflexivity.
      * destruct H4 as (_ & _ & H4). exfalso. apply H4. intuition.
  - split.
    + intros [<-|[]]. cbn. repeat split; intuition; discriminate.
    + intros (_ & H1 & H2 & H3 & H4). left. destruct m as [s b q t].
      cbn in *. subst. destruct t.
      * apply Hsym in H4. discriminate.
      * destruct H4 as (_ & _ & H4). apply Hq in H4. discriminate.
      * reflexivity.
Qed.

Lemma priority_total a b :
  Binance.by_priority a b = false -> Binance.by_priority b a = true.
Proof. unfold Binance.by_priority. lia. Qed.

Lemma priority_trans a b c :
  Binance.by_priority a b = true -> Binance.by_priority b c = true ->
  Binance.by_priority a c = true.
Proof. unfold Binance.by_priority. lia. Qed.

Lemma In_firstn {A} (x : A) n l : In x (firstn n l) -> In x l.
Proof.
  intros H. rewrite <- (firstn_skipn n l). apply in_or_app. by left.
Qed.

Lemma listed_In trading_pairs symbol_search m :
  In m (Binance.listed trading_pairs symbol_search) ->
  exists pair,
    In pair trading_pairs /\ In m (Binance.classify (Py.upper symbol_search) pair).
Proof.
  unfold Binance.listed, Binance.matches_of. intros H. apply In_firstn in H.
  apply (Permutation_in _ (sort_by_perm _ _)) in H.
  by apply in_flat_map in H.
Qed.

(** X11.  For one symbol, [find_symbols] lists at most 10 matches.  Each
    comes from a pair of the exchange information whose status is
    [TRADING]: an exact match when the symbol of the pair is the upper-cased
    search, a USDT pair or another pair when its base asset is.  Exact
    matches are listed before USDT pairs and these before the other pairs;
    when a trading pair has the symbol searched, the first line is an exact
    match. *)
Theorem X11_listed_matches (trading_pairs : list Binance.Pair) symbol_search :
  let shown := Binance.listed trading_pairs symbol_search in
  (length shown <= 10)%nat /\
  (forall m,
     In m shown ->
     exists pair,
       In pair trading_pairs /\
       Binance.p_status pair = Py.lit "TRADING" /\
       Binance.f_symbol m = Binance.p_symbol pair /\
       Binance.f_base m = Binance.p_baseAsset pair /\
       Binance.f_quote m = Binance.p_quoteAsset pair /\
       match Binance.f_type m with
       | Binance.exact => Binance.p_symbol pair = Py.upper symbol_search
       | Binance.usdt_pair =>
         Binance.p_symbol pair <> Py.upper symbol_search /\
         Binance.p_baseAsset pair = Py.upper symbol_search /\
         Binance.p_quoteAsset pair = Py.lit "USDT"
       | Binance.other_pair =>
         Binance.p_symbol pair <> Py.upper symbol_search /\
         Binance.p_baseAsset pair = Py.upper symbol_search /\
         Binance.p_quoteAsset pair <> Py.lit "USDT"
       end) /\
  (forall i j a b,
     (i < j)%nat -> shown !! i = Some a -> shown !! j = Some b ->
     Binance.priority (Binance.f_type a) <= Binance.priority (Binance.f_type b)) /\
  (forall pair,
     In pair trading_pairs ->
     Binance.p_status pair = Py.lit "TRADING" ->
     Binance.p_symbol pair = Py.upper symbol_search ->
     exists first,
       shown !! 0%nat = Some first /\ Binance.f_type first = Binance.exact).
Proof.
  cbv zeta. split; [|split; [|split]].
  - unfold Binance.listed. rewrite length_take. lia.
  - intros m Hm. apply listed_In in Hm as (pair & Hin & Hm).
    exists pair. split; [done|]. by apply classify_spec.
  - intros i j a b Hij Ha Hb. unfold Binance.listed in Ha, Hb.
    apply lookup_take_Some in Ha as [Ha _], Hb as [Hb _].
    pose proof (strongly_sorted_lookup _ _ i j a b
                  (sort_by_sorted _ priority_total priority_trans _) Hij Ha Hb)
      as Hle.
    unfold Binance.by_priority in Hle. lia.
  - intros pair Hin Hst Hsym.
    set (m := Binance.mkFound (Binance.p_symbol pair) (Binance.p_baseAsset pair)
                (Binance.p_quoteAsset pair) Binance.exact).
    assert (In m (Binance.matches_of trading_pairs symbol_search)) as Hm.
    { apply in_flat_map. exists pair. split; [done|].
      apply classify_spec. by subst m. }
    pose proof (sort_by_perm Binance.by_priority
                  (Binance.matches_of trading_pairs symbol_search)) as Hperm.
    pose proof (sort_by_sorted _ priority_total priority_trans
                  (Binance.matches_of trading_pairs symbol_search)) as Hs.
    apply (Permutation_in _ (Permutation_sym Hperm)) in Hm.
    unfold Binance.listed.
    destruct (Py.sort_by Binance.by_priority _) as [|first rest];
      [destruct Hm|].
    exists first. split; [reflexivity|].
    assert (Binance.by_priority first m = true) as Hle.
    { destruct Hm as [<-|Hm]; [unfold Binance.by_priority; lia|].
      apply StronglySorted_inv in Hs as [_ Hall].
      rewrite List.Forall_forall in Hall. by apply Hall. }
    unfold Binance.by_priority in Hle. subst m. simpl in Hle.
    destruct (Binance.f_type first); simpl in Hle; [done|lia|lia].
Qed.

Lemma endswith_spec s p :
  Py.endswith s p = true <-> exists pre, s = pre ++ p.
Proof.
  unfold Py.endswith. rewrite andb_true_iff, Nat.leb_le, str_eqb_eq. split.
  - intros [Hlen Hd]. exists (firstn (length s - length p) s).
    set (n := (length s - length p)%nat) in *.
    rewrite <- Hd. symmetry. apply take_drop.
  - intros [pre ->]. rewrite length_app. split; [lia|].
    replace (length pre + length p - length p)%nat with (length pre) by lia.
    by rewrite drop_app_length.
Qed.

(** X12.  The pairs that [find_symbols] recommends are at most 6.  Each ends
    with [USDT] and is the symbol of a pair whose status is [TRADING] and
    whose symbol or base asset is one of the symbols searched, upper-cased.
    The line of the recommendation follows the lines of the symbols; the
    note on the limit is printed exactly when more than 6 USDT pairs were
    found. *)
Theorem X12_recommended_pairs symbols (info : Binance.ExchangeInfo) :
  Binance.truthy info = true ->
  let trading_pairs := default [] (Binance.ei_symbols info) in
  let usdt_pairs :=
    Binance.usdt_pairs_of (Binance.found_pairs trading_pairs symbols) in
  let recommended := firstn 6 usdt_pairs in
  (length recommended <= 6)%nat /\
  (forall s,
     In s recommended ->
     (exists pre, s = pre ++ Py.lit "USDT") /\
     exists pair symbol_search,
       In pair trading_pairs /\ In symbol_search symbols /\
       Binance.p_status pair = Py.lit "TRADING" /\
       Binance.p_symbol pair = s /\
       (Binance.p_symbol pair = Py.upper symbol_search \/
        Binance.p_baseAsset pair = Py.upper symbol_search)) /\
  Binance.find_symbols symbols (inr info) =
    [Binance.say (Py.lit "Searching for symbols: "
                  ++ Py.join (Py.lit ", ") symbols);
     Binance.say (Py.rule "-" 50)] ++
    flat_map (Binance.symbol_lines trading_pairs) symbols ++
    match recommended with
    | [] => []
    | _ =>
      [Binance.say
         (Py.LF :: Py.lit "📝 Recommended USDT pairs for CYD configuration:");
       Binance.say (Py.lit "   " ++ Py.join (Py.lit ",") recommended)] ++
      (if (6 <? length usdt_pairs)%nat
       then [Binance.say (Py.lit "   (Limited to 6 pairs - CYD maximum)")]
       else [])
    end.
Proof.
  intros Htruthy. cbv zeta. split; [|split].
  - rewrite length_take. lia.
  - intros s Hs. apply In_firstn in Hs. unfold Binance.usdt_pairs_of in Hs.
    apply List.filter_In in Hs as [Hs Hend]. split; [by apply endswith_spec|].
    unfold Binance.found_pairs in Hs.
    apply in_flat_map in Hs as (symbol_search & Hsearch & Hs).
    apply in_map_iff in Hs as (m & <- & Hm).
    apply listed_In in Hm as (pair & Hpair & Hm).
    apply classify_spec in Hm as (Hst & Hsym & _ & _ & Htype).
    exists pair, symbol_search. repeat split; try done.
    destruct (Binance.f_type m); [by left|right|right]; by destruct Htype as (_ & ? & _).
  - unfold Binance.find_symbols. simpl Binance.get_exchange_info. cbv iota beta.
    rewrite Htruthy. cbn [negb]. f_equal. simpl app at 1.
    f_equal. unfold Binance.recommendation.
    destruct (Binance.found_pairs _ symbols) as [|f fs] eqn:Ef; [done|].
    by destruct (Binance.usdt_pairs_of (f :: fs)).
Qed.

Lemma str_leb_total a : forall b,
  Py.str_leb a b = false -> Py.str_leb b a = true.
Proof.
  induction a as [|x a IH]; intros [|y b]; simpl; try done.
  destruct (N.ltb_spec (Py.code x) (Py.code y)); [done|].
  destruct (N.ltb_spec (Py.code y) (Py.code x)); [done|].
  apply IH.
Qed.

Lemma str_leb_trans a : forall b c,
  Py.str_leb a b = true -> Py.str_leb b c = true -> Py.str_leb a c = true.
Proof.
  induction a as [|x a IH]; intros [|y b] [|z c]; simpl; try done.
  destruct (N.ltb_spec (Py.code x) (Py.code y)),
    (N.ltb_spec (Py.code y) (Py.code z)),
    (N.ltb_spec (Py.code x) (Py.code z)),
    (N.ltb_spec (Py.code y) (Py.code x)),
    (N.ltb_spec (Py.code z) (Py.code y)),
    (N.ltb_spec (Py.code z) (Py.code x)); try done; try lia.
  apply IH.
Qed.

Lemma chunks_concat {A} (l : list A) m :
  concat (map (fun i => Py.slice l i (i + 4))
              (map (fun k => (4 * k)%nat) (seq 0 m))) =
  firstn (4 * m) l.
Proof.
  induction m as [|m IH]; [reflexivity|].
  rewrite seq_S, !map_app, concat_app, IH. simpl map. simpl concat.
  rewrite app_nil_r. unfold Py.slice.
  replace (4 * m + 4 - 4 * m)%nat with 4%nat by lia.
  rewrite take_take_drop. f_equal. lia.
Qed.

Lemma rows_spec (l : list (list ascii)) :
  concat (Binance.rows l) = firstn 100 l /\
  Forall (fun row => (1 <= length row <= 4)%nat) (Binance.rows l).
Proof.
  unfold Binance.rows, Py.range_step. split.
  - rewrite chunks_concat.
    destruct (Nat.le_gt_cases 100 (length l)) as [Hl|Hl].
    + by rewrite Nat.min_l by done.
    + rewrite Nat.min_r by lia. rewrite !take_ge; [done|lia|].
      pose proof (Nat.div_mod_eq (length l + 4 - 1) 4).
      pose proof (Nat.mod_upper_bound (length l + 4 - 1) 4). lia.
  - apply List.Forall_forall. intros row Hrow.
    apply in_map_iff in Hrow as (i & <- & Hi).
    apply in_map_iff in Hi as (k & <- & Hk). apply in_seq in Hk.
    unfold Py.slice. rewrite length_take, length_drop.
    assert (4 * k < Nat.min 100 (length l))%nat.
    { pose proof (Nat.div_mod_eq (Nat.min 100 (length l) + 4 - 1) 4).
      pose proof (Nat.mod_upper_bound (Nat.min 100 (length l) + 4 - 1) 4).
      lia. }
    lia.
Qed.

(** X13.  [show_usdt_pairs] lists the symbols of the pairs whose status is
    [TRADING] and whose quote asset is [USDT], each as often as the
    exchange information has it, in ascending order.  The rows printed hold
    the first 100 of them in this order, 4 to a row but for the last, which
    holds 1 to 4.  The popular pairs printed are at most 6 of the symbols
    listed, each beginning with one of the ten names. *)
Theorem X13_usdt_pairs_listing (info : Binance.ExchangeInfo) :
  Binance.truthy info = true ->
  let trading_pairs := default [] (Binance.ei_symbols info) in
  let usdt_pairs := Binance.trading_usdt trading_pairs in
  (forall s,
     In s usdt_pairs <->
     exists pair,
       In pair trading_pairs /\
       Binance.p_status pair = Py.lit "TRADING" /\
       Binance.p_quoteAsset pair = Py.lit "USDT" /\
       Binance.p_symbol pair = s) /\
  length usdt_pairs =
    length (List.filter
              (fun pair =>
                 Py.str_eqb (Binance.p_status pair) (Py.lit "TRADING")
                 && Py.str_eqb (Binance.p_quoteAsset pair) (Py.lit "USDT"))
              trading_pairs) /\
  (forall i j a b,
     (i < j)%nat -> usdt_pairs !! i = Some a -> usdt_pairs !! j = Some b ->
     Py.str_leb a b = true) /\
  concat (Binance.rows usdt_pairs) = firstn 100 usdt_pairs /\
  Forall (fun row => (1 <= length row <= 4)%nat) (Binance.rows usdt_pairs) /\
  (length (firstn 6 (Binance.popular_of usdt_pairs)) <= 6)%nat /\
  (forall s,
     In s (firstn 6 (Binance.popular_of usdt_pairs)) ->
     In s usdt_pairs /\
     exists name post, In name Binance.popular_symbols /\ s = name ++ post) /\
  Binance.show_usdt_pairs (inr info) =
    [Binance.say (Py.lit "All available USDT trading pairs:");
     Binance.say (Py.rule "-" 50);
     Binance.say (Py.lit "Total USDT pairs available: "
                  ++ Py.str_int (Z.of_nat (length usdt_pairs)));
     Binance.say (Py.LF :: Py.lit "Pairs (showing first 100):")] ++
    map (fun row =>
           Binance.say (Py.join (Py.lit "  ") (map (Py.ljust 15) row)))
        (Binance.rows usdt_pairs) ++
    (if (100 <? length usdt_pairs)%nat
     then [Binance.say (Py.LF :: Py.lit "... and "
                        ++ Py.str_int (Z.of_nat (length usdt_pairs) - 100)
                        ++ Py.lit " more pairs")]
     else []) ++
    match firstn 6 (Binance.popular_of usdt_pairs) with
    | [] => []
    | shown =>
      [Binance.say
         (Py.LF :: Py.lit "📝 Popular pairs for CYD configuration:");
       Binance.say (Py.lit "   " ++ Py.join (Py.lit ",") shown)]
    end.
Proof.
  intros Htruthy. cbv zeta.
  set (trading_pairs := default [] (Binance.ei_symbols info)).
  pose proof (sort_by_perm Py.str_leb
    (map Binance.p_symbol
       (List.filter
          (fun pair => Py.str_eqb (Binance.p_status pair) (Py.lit "TRADING")
                       && Py.str_eqb (Binance.p_quoteAsset pair) (Py.lit "USDT"))
          trading_pairs))) as Hperm.
  fold (Binance.trading_usdt trading_pairs) in Hperm.
  destruct (rows_spec (Binance.trading_usdt trading_pairs)) as [Hrows Hlen].
  repeat split; try done.
  - intros Hs. apply (Permutation_in _ Hperm) in Hs.
    apply in_map_iff in Hs as (pair & <- & Hin).
    apply List.filter_In in Hin as [Hin Hok].
    apply andb_true_iff in Hok as [Hst Hq]. apply str_eqb_eq in Hst, Hq.
    by exists pair.
  - intros (pair & Hin & Hst & Hq & <-).
    apply (Permutation_in _ (Permutation_sym Hperm)).
    apply in_map. apply List.filter_In. split; [done|].
    apply andb_true_iff. by rewrite !str_eqb_eq.
  - rewrite (Permutation_length Hperm). apply length_map.
  - intros i j a b Hij Ha Hb.
    apply (strongly_sorted_lookup _ _ i j a b
             (sort_by_sorted _ str_leb_total str_leb_trans _) Hij Ha Hb).
  - rewrite length_take. lia.
  - apply In_firstn in H. unfold Binance.popular_of in H.
    by apply List.filter_In in H as [H _].
  - apply In_firstn in H. unfold Binance.popular_of in H.
    apply List.filter_In in H as [_ H].
    apply existsb_exists in H as (name & Hname & Hpre).
    apply startswith_spec in Hpre as [post ->]. by exists name, post.
  - unfold Binance.show_usdt_pairs. simpl Binance.get_exchange_info.
    cbv iota beta. rewrite Htruthy. cbn [negb]. fold trading_pairs.
    by destruct (Binance.popular_of (Binance.trading_usdt trading_pairs)).
Qed.

Lemma X12_recommended_pairs_witness :
  List.last
    (Binance.find_symbols [Py.lit "eth"; Py.lit "btc"; Py.lit "xrp"]
       (inr sample_info))
    (Print "") =
  Binance.say (Py.lit "   ETHUSDT").
Proof.
  destruct (X12_recommended_pairs [Py.lit "eth"; Py.lit "btc"; Py.lit "xrp"]
              sample_info eq_refl) as (_ & _ & ->).
  vm_compute. reflexivity.
Defined.

Lemma X13_usdt_pairs_listing_witness :
  List.last (Binance.show_usdt_pairs (inr sample_info)) (Print "") =
  Binance.say (Py.lit "   ADAUSDT,ETHUSDT").
Proof.
  destruct (X13_usdt_pairs_listing sample_info eq_refl)
    as (_ & _ & _ & _ & _ & _ & _ & ->).
  vm_compute. reflexivity.
Defined.

(** ** The letter case of a search *)

Lemma upper_char_idem c : Py.upper_char (Py.upper_char c) = Py.upper_char c.
Proof.
  unfold Py.upper_char.
  destruct (Py.in_range 97 122 c) eqn:Hc; [|by rewrite Hc].
  replace (Py.in_range 97 122 (ascii_of_N (Py.code c - 32))) with false;
    [reflexivity|].
  unfold Py.in_range, Py.code in *.
  apply andb_true_iff in Hc as [H1 H2]. apply N.leb_le in H1, H2.
  rewrite N_ascii_embedding by lia.
  symmetry. apply andb_false_iff. left. apply N.leb_gt. lia.
Qed.

Lemma upper_idem s : Py.upper (Py.upper s) = Py.upper s.
Proof.
  unfold Py.upper. rewrite map_map. apply map_ext. apply upper_char_idem.
Qed.

(** X14.  Both searches take the symbol asked for in upper case: a symbol
    and its upper-case form give the same matches, in
    [find_coin_by_symbol] and in the listing of [find_symbols]. *)
Theorem X14_search_ignores_case symbol key (answer : FindCoinId.Answer FindCoinId.Coin)
    (trading_pairs : list Binance.Pair) :
  FindCoinId.find_coin_by_symbol (Py.upper symbol) key answer =
    FindCoinId.find_coin_by_symbol symbol key answer /\
  Binance.listed trading_pairs (Py.upper symbol) =
    Binance.listed trading_pairs symbol.
Proof.
  split.
  - unfold FindCoinId.find_coin_by_symbol, FindCoinId.same_symbol.
    by rewrite upper_idem.
  - unfold Binance.listed, Binance.matches_of. by rewrite upper_idem.
Qed.
